(** * Slip theme compositor: the canvas renderer of [Index] and the
      [process-slip] edge function

    The page component [Index] asks the edge function [process-slip] for the
    text elements of an uploaded slip and then repaints them on a themed
    canvas.  The source keeps two revisions of [processImage]: one paints a
    fixed Kasikorn Bank template, the other lays the recognized elements out
    on a purple gradient.  Both are embedded below, statement by statement,
    over a small model of the 2D canvas that records what was painted. *)

From Stdlib Require Import ZArith QArith Qcanon Qround String List Lia Bool.
From Stdlib Require Import Ascii DecimalString Floats Zpower.
From Stdlib Require Uint63.
From Equations Require Import Equations.
Import ListNotations.

Open Scope string_scope.
Open Scope Z_scope.

(** ** Numbers

    A JavaScript number is a binary64 ([float]), and the arithmetic of the
    handler ([/], [*]) is the arithmetic of binary64, which rounds and
    overflows.  What the canvas is given, and records, is the rational a
    finite binary64 stands for, a canonical rational [Qc].  The integers
    the canvas reports ([canvas.width], [img.height]) are [Z].

    A decimal literal stands for the nearest binary64, as in JavaScript. *)

Set Warnings "-inexact-float".

Definition num_of_Z (z : Z) : Qc := Q2Qc (inject_Z z).
Coercion num_of_Z : Z >-> Qc.

(** The position computed by the source, [(percent / 100) * size], in the
    binary64 arithmetic JavaScript runs it in. *)
Definition position_binary64 (percent size : float) : float :=
  ((percent / 100) * size)%float.

(** The rational a binary64 number stands for; [None] for the infinities
    and NaN. *)
Definition exact_of_float (f : float) : option Qc :=
  match Prim2SF f with
  | S754_zero _ => Some (num_of_Z 0)
  | S754_finite s m e =>
      let magnitude :=
        match e with
        | Zneg k => Q2Qc (Zpos m # shift_pos k 1)
        | _ => num_of_Z (Zpos m * 2 ^ e)
        end in
      Some (if s then (- magnitude)%Qc else magnitude)
  | S754_infinity _ => None
  | S754_nan => None
  end.

(** An integer of the canvas ([canvas.width], [canvas.height]) as the
    number the arithmetic of the handler receives; the sizes of a canvas
    are below [2^32], far inside the integers binary64 holds exactly. *)
Definition number_of_Z (z : Z) : float :=
  match z with
  | Zneg p => (- of_uint63 (Uint63.of_Z (Zpos p)))%float
  | _ => of_uint63 (Uint63.of_Z z)
  end.

(** [Math.round]: the nearest integer, halves going up.  The source never
    calls it; it is here to state what a rounded position would be. *)
Definition Math_round (q : Qc) : Z := Qfloor (q + Q2Qc (1 # 2))%Qc.

(** [`${n}`] for an integer [n]. *)
Definition string_of_Z (z : Z) : string := NilZero.string_of_int (Z.to_int z).

(** ** JSON values, as [JSON.parse] builds them: a number is a binary64 *)

Unset Elimination Schemes.
Inductive json : Type :=
| JNull
| JBool (b : bool)
| JNumber (n : float)
| JString (s : string)
| JArray (items : list json)
| JObject (members : list (string * json)).
Set Elimination Schemes.

(** [v === "lit"] where [v] was read from a field that may be missing
    ([None] is [undefined]). *)
Definition strict_eq_string (v : option json) (lit : string) : bool :=
  match v with
  | Some (JString s) => String.eqb s lit
  | _ => false
  end.

(** ** The 2D canvas *)

Record colorStop := { offset : Qc; color : string }.

Record canvasGradient := {
  gx0 : Qc; gy0 : Qc; gx1 : Qc; gy1 : Qc;
  colorStops : list colorStop
}.

Inductive paint : Type :=
| Color (css : string)
| Gradient (g : canvasGradient).

Inductive textAlignment := AlignStart | AlignLeft | AlignCenter | AlignRight.

(** Angles of [Arc] are rational multiples of [Math.PI]. *)
Inductive pathSegment : Type :=
| MoveTo (px py : Qc)
| LineTo (px py : Qc)
| Arc (cx cy radius startPi endPi : Qc).

(** One entry per painting call, with the context state it was painted
    under. *)
Inductive drawop : Type :=
| FillRect (fill : paint) (rx ry rw rh : Qc)
| FillText (fill : paint) (fnt : string) (align : textAlignment)
           (txt : string) (tx ty : Qc)
| FillPath (fill : paint) (p : list pathSegment)
| StrokePath (stroke : paint) (lw : Qc) (p : list pathSegment).

Record canvas := {
  width : Z;
  height : Z;
  fillStyle : paint;
  strokeStyle : paint;
  font : string;
  textAlign : textAlignment;
  lineWidth : Qc;
  path : list pathSegment;
  drawn : list drawop
}.

(** [document.createElement("canvas")]: 300 by 150, nothing painted, the
    context in its default state. *)
Definition reset_canvas (w h : Z) : canvas :=
  {| width := w; height := h;
     fillStyle := Color "#000000"; strokeStyle := Color "#000000";
     font := "10px sans-serif"; textAlign := AlignStart; lineWidth := 1;
     path := []; drawn := [] |}.

Definition createElement_canvas : canvas := reset_canvas 300 150.

(** A statement on the canvas and its context. *)
Definition stmt := canvas -> canvas.

Definition seq_stmt (s1 s2 : stmt) : stmt := fun c => s2 (s1 c).
Notation "s1 ;; s2" := (seq_stmt s1 s2) (at level 61, right associativity).

Definition skip : stmt := fun c => c.

(** A statement whose arguments read the canvas ([canvas.width], ...). *)
Definition reading (f : canvas -> stmt) : stmt := fun c => f c c.

(** Assigning [canvas.width] or [canvas.height] clears the bitmap and puts
    the context back in its default state. *)
Definition set_width (w : Z) : stmt := fun c => reset_canvas w (height c).
Definition set_height (h : Z) : stmt := fun c => reset_canvas (width c) h.

Definition set_fillStyle (p : paint) : stmt := fun c =>
  {| width := width c; height := height c;
     fillStyle := p; strokeStyle := strokeStyle c;
     font := font c; textAlign := textAlign c; lineWidth := lineWidth c;
     path := path c; drawn := drawn c |}.

Definition set_strokeStyle (p : paint) : stmt := fun c =>
  {| width := width c; height := height c;
     fillStyle := fillStyle c; strokeStyle := p;
     font := font c; textAlign := textAlign c; lineWidth := lineWidth c;
     path := path c; drawn := drawn c |}.

Definition set_font (f : string) : stmt := fun c =>
  {| width := width c; height := height c;
     fillStyle := fillStyle c; strokeStyle := strokeStyle c;
     font := f; textAlign := textAlign c; lineWidth := lineWidth c;
     path := path c; drawn := drawn c |}.

Definition set_textAlign (a : textAlignment) : stmt := fun c =>
  {| width := width c; height := height c;
     fillStyle := fillStyle c; strokeStyle := strokeStyle c;
     font := font c; textAlign := a; lineWidth := lineWidth c;
     path := path c; drawn := drawn c |}.

Definition set_lineWidth (w : Qc) : stmt := fun c =>
  {| width := width c; height := height c;
     fillStyle := fillStyle c; strokeStyle := strokeStyle c;
     font := font c; textAlign := textAlign c; lineWidth := w;
     path := path c; drawn := drawn c |}.

Definition set_path (p : list pathSegment) : stmt := fun c =>
  {| width := width c; height := height c;
     fillStyle := fillStyle c; strokeStyle := strokeStyle c;
     font := font c; textAlign := textAlign c; lineWidth := lineWidth c;
     path := p; drawn := drawn c |}.

Definition paint_op (op : drawop) : stmt := fun c =>
  {| width := width c; height := height c;
     fillStyle := fillStyle c; strokeStyle := strokeStyle c;
     font := font c; textAlign := textAlign c; lineWidth := lineWidth c;
     path := path c; drawn := drawn c ++ [op] |}.

Definition fillRect (rx ry rw rh : Qc) : stmt :=
  reading (fun c => paint_op (FillRect (fillStyle c) rx ry rw rh)).

Definition fillText (txt : string) (tx ty : Qc) : stmt :=
  reading (fun c => paint_op (FillText (fillStyle c) (font c) (textAlign c) txt tx ty)).

(** [fillText] with the numbers a computation gave: the canvas returns
    without painting when an argument is infinite or NaN. *)
Definition fillText_number (txt : string) (tx ty : float) : stmt :=
  match exact_of_float tx, exact_of_float ty with
  | Some qx, Some qy => fillText txt qx qy
  | _, _ => skip
  end.

Definition beginPath : stmt := set_path [].
Definition moveTo (px py : Qc) : stmt :=
  reading (fun c => set_path (path c ++ [MoveTo px py])).
Definition lineTo (px py : Qc) : stmt :=
  reading (fun c => set_path (path c ++ [LineTo px py])).
Definition arc (cx cy radius startPi endPi : Qc) : stmt :=
  reading (fun c => set_path (path c ++ [Arc cx cy radius startPi endPi])).
Definition fill : stmt :=
  reading (fun c => paint_op (FillPath (fillStyle c) (path c))).
Definition stroke : stmt :=
  reading (fun c => paint_op (StrokePath (strokeStyle c) (lineWidth c) (path c))).

Definition createLinearGradient (x0 y0 x1 y1 : Qc) : canvasGradient :=
  {| gx0 := x0; gy0 := y0; gx1 := x1; gy1 := y1; colorStops := [] |}.

Definition addColorStop (off : Qc) (col : string) (g : canvasGradient) : canvasGradient :=
  {| gx0 := gx0 g; gy0 := gy0 g; gx1 := gx1 g; gy1 := gy1 g;
     colorStops := colorStops g ++ [ {| offset := off; color := col |} ] |}.

(** [canvas.toDataURL(type)]: the encoded bitmap, identified by its type, its
    size and what was painted on it. *)
Record dataURL := {
  mime : string;
  pixelWidth : Z;
  pixelHeight : Z;
  painted : list drawop
}.

Definition toDataURL (type : string) (c : canvas) : dataURL :=
  {| mime := type; pixelWidth := width c; pixelHeight := height c;
     painted := drawn c |}.

(** ** The background shared by both revisions

    Both revisions fill the canvas with a diagonal gradient of two stops and
    lay a faint line over every twentieth row; they differ in the two stop
    colours only.  The source has no function that takes stops: the
    argument [stops] below stands for the two literal [addColorStop] calls
    of a revision, [ThemedLayout.theme_stops] or
    [KasikornTemplate.theme_stops], at offsets 0 and 1 and with colours the
    browser accepts.  [addColorStop] is given no failure here; the browser
    throws for an offset outside 0 to 1 or a colour it cannot parse, which
    no call of the source passes. *)

Definition gradient_fill (stops : list colorStop) : stmt :=
  reading (fun cv =>
    let gradient :=
      fold_left (fun g s => addColorStop (offset s) (color s) g) stops
                (createLinearGradient 0 0 (width cv) (height cv)) in
    set_fillStyle (Gradient gradient) ;;
    fillRect 0 0 (width cv) (height cv)).

(** [for (let i = 0; i < canvas.height; i += 20) ctx.fillRect(0, i, canvas.width, 1)],
    entered at [i]. *)
Equations? pattern_loop (i : Z) (c : canvas) : canvas
  by wf (Z.to_nat (height c - i)) lt :=
  pattern_loop i c with Z_lt_dec i (height c) => {
    | left _ := pattern_loop (i + 20) (fillRect 0 i (width c) 1 c);
    | right _ := c }.
Proof. simpl. lia. Qed.

Definition pattern_overlay : stmt :=
  set_fillStyle (Color "rgba(0, 0, 0, 0.05)") ;; pattern_loop 0.

Definition renderBackground (stops : list colorStop) : stmt :=
  gradient_fill stops ;; pattern_overlay.

(** ** What [processImage] does to the page *)

Inductive toastVariant := VariantDefault | VariantDestructive.

Record toastMessage := {
  title : string;
  description : string;
  variant : toastVariant
}.

Inductive effect : Type :=
| SetIsProcessing (b : bool)
| SetProcessedImage (url : dataURL)
| ConsoleError (label : string) (msg : string)
| Toast (t : toastMessage).

(** One recognized text element, as the edge function is asked to return
    it: a text, a position in percent of the canvas, and a size hint in the
    field [fontSize], which may be missing or hold any JSON value.  The
    percentages are the rationals the two numbers stand for; an element of
    any other shape, and the rounding of binary64, are in [Untyped]
    below. *)
Record element := {
  text : string;
  x : Qc;
  y : Qc;
  fontSize : option json
}.

(** [data.textElements], as the guard
    [data.textElements && Array.isArray(data.textElements)] sees it. *)
Inductive textElementsField : Type :=
| NotAnArray
| ArrayOf (elements : list element).

(** A thrown value, by its [message] (empty when it has none). *)
Record jsError := { message : string }.

(** [await supabase.functions.invoke("process-slip", ...)], for the
    answers whose elements have the shape of [element]; [Untyped.world]
    holds any answer. *)
Inductive invokeResult : Type :=
| InvokeError (error : jsError)
| InvokeData (textElements : textElementsField).

(** What one run of [processImage] meets: the answer of the edge function,
    whether the canvas gives a 2D context, the size of the uploaded image
    once it has loaded ([None]: the load event never fires), and the string
    [new Date().toLocaleDateString("th-TH", ...)] returns. *)
Record world := {
  invoked : invokeResult;
  context2d : bool;
  loaded : option (Z * Z);
  currentDate : string
}.

Definition success_toast : toastMessage :=
  {| title := "Success!"; description := "Your slip has been processed";
     variant := VariantDefault |}.

(** [error.message || "Failed to process image. Please try again."] *)
Definition failure_toast (error : jsError) : toastMessage :=
  {| title := "Processing failed";
     description := if String.eqb (message error) ""
                    then "Failed to process image. Please try again."
                    else message error;
     variant := VariantDestructive |}.

(** The body of [processImage], which the two revisions share up to the
    handler [onload] they install on the image.  The handler runs when the
    image has loaded, after the [finally] block; nothing is installed for a
    failed load. *)
Definition processImage_with
    (onload : Z * Z -> string -> textElementsField -> list effect)
    (selectedImage : option string) (w : world) : list effect :=
  match selectedImage with
  | None => []
  | Some EmptyString => []
  | Some _ =>
      [SetIsProcessing true] ++
      match invoked w with
      | InvokeError error =>
          [ConsoleError "Error processing image:" (message error);
           Toast (failure_toast error);
           SetIsProcessing false]
      | InvokeData data =>
          if context2d w then
            [SetIsProcessing false] ++
            match loaded w with
            | Some size => onload size (currentDate w) data
            | None => []
            end
          else
            [ConsoleError "Error processing image:" "Canvas not supported";
             Toast (failure_toast {| message := "Canvas not supported" |});
             SetIsProcessing false]
      end
  end.

(** ** The revision that lays the recognized elements out *)

Module ThemedLayout.

Definition theme_stops : list colorStop :=
  [ {| offset := 0; color := "#7c3aed" |};
    {| offset := 1; color := "#c026d3" |} ].

(** [element.fontSize === "large" ? 24 : element.fontSize === "small" ? 12 : 16] *)
Definition fontSize_px (v : option json) : Z :=
  if strict_eq_string v "large" then 24
  else if strict_eq_string v "small" then 12
  else 16.

(** The callback of [forEach], on an element of the asked shape and with
    the products taken exactly; [Untyped.draw_element] is the callback on
    any value, with the products of binary64. *)
Definition draw_element (element : element) : stmt :=
  let fontSize := fontSize_px (fontSize element) in
  set_font (string_of_Z fontSize ++ "px Arial, sans-serif") ;;
  reading (fun canvas =>
    let x := ((x element / 100) * width canvas)%Qc in
    let y := ((y element / 100) * height canvas)%Qc in
    fillText (text element) x y).

Definition forEach (elements : list element) (f : element -> stmt) : stmt :=
  fun c => fold_left (fun c e => f e c) elements c.

(** "Draw extracted text": the statements from [ctx.fillStyle = "white"]
    to the end of the guarded [forEach]. *)
Definition composite (data : textElementsField) : stmt :=
  set_fillStyle (Color "white") ;;
  set_textAlign AlignCenter ;;
  match data with
  | ArrayOf elements => forEach elements draw_element
  | NotAnArray => skip
  end.

(** The canvas takes the size of the uploaded image and is filled with
    the themed background. *)
Definition background_stage (size : Z * Z) : stmt :=
  set_width (fst size) ;;
  set_height (snd size) ;;
  renderBackground theme_stops.

Definition render (size : Z * Z) (data : textElementsField) : canvas :=
  (background_stage size ;; composite data) createElement_canvas.

Definition img_onload (size : Z * Z) (date : string)
    (data : textElementsField) : list effect :=
  [SetProcessedImage (toDataURL "image/png" (render size data));
   Toast success_toast].

Definition processImage : option string -> world -> list effect :=
  processImage_with img_onload.

End ThemedLayout.

(** ** The revision that paints the fixed template *)

Module KasikornTemplate.

Definition theme_stops : list colorStop :=
  [ {| offset := 0; color := "#a8305a" |};
    {| offset := 1; color := "#7b3897" |} ].

Definition background_stage : stmt :=
  set_width 800 ;;
  set_height 1200 ;;
  renderBackground theme_stops.

Definition divider (yPos : Z) : stmt :=
  beginPath ;;
  moveTo 50 yPos ;;
  reading (fun canvas => lineTo (width canvas - 50) yPos) ;;
  stroke.

(** Logo, bank name and date. *)
Definition header (currentDate : string) : stmt :=
  set_fillStyle (Color "#c13832") ;;
  beginPath ;;
  reading (fun canvas => arc (width canvas / 2)%Qc 80 40 0 2) ;;
  fill ;;
  set_fillStyle (Color "#4caf50") ;;
  set_font "bold 40px Arial" ;;
  set_textAlign AlignCenter ;;
  reading (fun canvas => fillText "🌿" (width canvas / 2)%Qc 95) ;;
  set_fillStyle (Color "#f4d03f") ;;
  set_font "bold 28px Arial" ;;
  reading (fun canvas => fillText "KASIKORN BANK" (width canvas / 2)%Qc 160) ;;
  set_fillStyle (Color "white") ;;
  set_font "18px Arial" ;;
  reading (fun canvas => fillText currentDate (width canvas / 2)%Qc 200) ;;
  set_strokeStyle (Color "rgba(255, 255, 255, 0.3)") ;;
  set_lineWidth 1 ;;
  divider 230.

(** Sender, arrow, receiver. *)
Definition parties : stmt :=
  set_fillStyle (Color "white") ;;
  set_font "20px Arial" ;;
  set_textAlign AlignLeft ;;
  fillText "จาก (From)" 60 280 ;;
  set_font "bold 24px Arial" ;;
  fillText "ผู้ส่ง (Sender)" 60 315 ;;
  set_font "30px Arial" ;;
  set_textAlign AlignCenter ;;
  reading (fun canvas => fillText "→" (width canvas / 2)%Qc 315) ;;
  set_font "20px Arial" ;;
  set_textAlign AlignRight ;;
  reading (fun canvas => fillText "ถึง (To)" (width canvas - 60) 280) ;;
  set_font "bold 24px Arial" ;;
  reading (fun canvas => fillText "ผู้รับ (Receiver)" (width canvas - 60) 315) ;;
  set_strokeStyle (Color "rgba(255, 255, 255, 0.3)") ;;
  divider 350.

(** Reference, amount, fee, QR placeholder and footer; [yPos] is the
    running baseline of the source. *)
Definition details : stmt :=
  let yPos := 400 in
  set_fillStyle (Color "white") ;;
  set_font "20px Arial" ;;
  set_textAlign AlignLeft ;;
  fillText "เลขที่อ้างอิง (Reference)" 60 yPos ;;
  set_font "bold 22px Arial" ;;
  fillText "XXXXXXXXXX" 60 (yPos + 30) ;;
  let yPos := yPos + 80 in
  set_font "20px Arial" ;;
  fillText "จำนวนเงิน (Amount)" 60 yPos ;;
  set_fillStyle (Color "#f4d03f") ;;
  set_font "bold 36px Arial" ;;
  fillText "฿ X,XXX.XX" 60 (yPos + 40) ;;
  let yPos := yPos + 100 in
  set_fillStyle (Color "white") ;;
  set_font "20px Arial" ;;
  fillText "ค่าธรรมเนียม (Fee)" 60 yPos ;;
  set_font "bold 22px Arial" ;;
  fillText "฿ 0.00" 60 (yPos + 30) ;;
  let yPos := yPos + 80 in
  set_strokeStyle (Color "rgba(255, 255, 255, 0.3)") ;;
  divider yPos ;;
  let yPos := yPos + 50 in
  set_fillStyle (Color "white") ;;
  reading (fun canvas => fillRect (width canvas / 2 - 100)%Qc yPos 200 200) ;;
  set_fillStyle (Color "#a8305a") ;;
  set_font "20px Arial" ;;
  set_textAlign AlignCenter ;;
  reading (fun canvas => fillText "QR CODE" (width canvas / 2)%Qc (yPos + 110)) ;;
  set_fillStyle (Color "rgba(255, 255, 255, 0.7)") ;;
  set_font "16px Arial" ;;
  reading (fun canvas => fillText "สแกนตรวจสอบสลิป" (width canvas / 2)%Qc (yPos + 250)).

Definition render (currentDate : string) : canvas :=
  (background_stage ;; header currentDate ;; parties ;; details)
    createElement_canvas.

(** The handler reads neither the size of the image nor the answer of
    the edge function. *)
Definition img_onload (size : Z * Z) (date : string)
    (data : textElementsField) : list effect :=
  [SetProcessedImage (toDataURL "image/png" (render date));
   Toast success_toast].

Definition processImage : option string -> world -> list effect :=
  processImage_with img_onload.

End KasikornTemplate.

(** ** The edge function [process-slip] *)

Module ProcessSlip.

(** The request: its method and what [await req.json()] gives, the image
    or the error it rejects with. *)
Record request := {
  method : string;
  body : jsError + string
}.

(** The body of the gateway's answer: [response.json()] rejects (or gives
    [null], on which reading [choices] throws), or gives a value whose
    [choices?.[0]?.message?.content] is read; the content is whatever JSON
    value stands there, or [undefined]. *)
Inductive gatewayBody : Type :=
| BodyRejected (error : jsError)
| BodyJson (content : option json).

(** A response of the gateway: [errorText] is what [await response.text()]
    gives, the text or the error it rejects with, and [payload] what
    [await response.json()] gives. *)
Record gatewayResponse := {
  ok : bool;
  gateway_status : Z;
  errorText : jsError + string;
  payload : gatewayBody
}.

(** [await fetch(...)] *)
Inductive fetchResult : Type :=
| FetchRejected (error : jsError)
| FetchResolved (response : gatewayResponse).

(** A [Response]: status and body ([None] for the empty body of the
    preflight answer), the body being the value given to [JSON.stringify],
    which writes a number that is not finite as [null].  Every answer
    carries the same CORS headers, which are left out. *)
Record httpResponse := {
  status : Z;
  responseBody : option json
}.

Definition error_response (st : Z) (msg : string) : httpResponse :=
  {| status := st; responseBody := Some (JObject [("error", JString msg)]) |}.

(** [[{ text: extractedText, x: 50, y: 50, fontSize: "medium" }]] *)
Definition fallback_textElements (extractedText : string) : json :=
  JArray [JObject [("text", JString extractedText);
                   ("x", JNumber 50%float);
                   ("y", JNumber 50%float);
                   ("fontSize", JString "medium")]].

(** The same fallback when the content is not a string: the value goes
    into [text] as it is. *)
Definition fallback_of (extractedText : json) : json :=
  JArray [JObject [("text", extractedText);
                   ("x", JNumber 50%float);
                   ("y", JNumber 50%float);
                   ("fontSize", JString "medium")]].

(** A value in a condition: [null], [false], zero, NaN and the empty
    string are falsy. *)
Definition truthy_json (v : json) : bool :=
  match v with
  | JNull => false
  | JBool b => b
  | JNumber n => negb (PrimFloat.is_zero n || PrimFloat.is_nan n)
  | JString s => negb (String.eqb s "")
  | JArray _ => true
  | JObject _ => true
  end.

Section Serve.

(** [JSON.parse]; [None] when it throws. *)
Variable JSON_parse : string -> option json.

(** The match of the fenced-block expression: the whole match and its
    capture group. *)
Variable match_fenced : string -> option (string * string).

(** The match of the bracket expression, which has no group. *)
Variable match_bracketed : string -> option string.

(** [jsonMatch ? (jsonMatch[1] || jsonMatch[0]) : extractedText] *)
Definition jsonStr (extractedText : string) : string :=
  match match_fenced extractedText with
  | Some (whole, group) =>
      if String.eqb group "" then whole else group
  | None =>
      match match_bracketed extractedText with
      | Some whole => whole
      | None => extractedText
      end
  end.

(** The inner [try]: the parsed value, or the fallback when something
    throws: [JSON.parse] on the string, or the call of [match] on a
    content that is not a string and has no such method. *)
Definition parse_textElements (extractedText : json) : json :=
  match extractedText with
  | JString text =>
      match JSON_parse (jsonStr text) with
      | Some textElements => textElements
      | None => fallback_textElements text
      end
  | _ => fallback_of extractedText
  end.

Definition serve (req : request) (LOVABLE_API_KEY : option string)
    (fetched : fetchResult) : httpResponse :=
  if String.eqb (method req) "OPTIONS" then
    {| status := 200; responseBody := None |}
  else
    match body req with
    | inl error => error_response 500 (message error)
    | inr image =>
      match LOVABLE_API_KEY with
      | None | Some EmptyString =>
          error_response 500 "LOVABLE_API_KEY is not configured"
      | Some _ =>
        match fetched with
        | FetchRejected error => error_response 500 (message error)
        | FetchResolved response =>
          if negb (ok response) then
            if gateway_status response =? 429 then
              error_response 429 "Rate limit exceeded. Please try again later."
            else if gateway_status response =? 402 then
              error_response 402
                "Payment required. Please add credits to your workspace."
            else
              match errorText response with
              | inl error => error_response 500 (message error)
              | inr _ => error_response 500 "Failed to process image"
              end
          else
            match payload response with
            | BodyRejected error => error_response 500 (message error)
            | BodyJson None =>
                error_response 500 "No text extracted from image"
            | BodyJson (Some extractedText) =>
                if truthy_json extractedText then
                  {| status := 200;
                     responseBody :=
                       Some (JObject [("textElements",
                                       parse_textElements extractedText)]) |}
                else error_response 500 "No text extracted from image"
            end
        end
      end
    end.

End Serve.

End ProcessSlip.

(** ** From the answer of the edge function to the elements the page draws

    The page reads [data.textElements] and the fields of each element
    without checking them.  [read_textElements] gives the elements for the
    answers in which every element is an object with a string [text] and
    finite numeric [x] and [y]; on these, and with exact arithmetic,
    [ThemedLayout] is the handler.  [Untyped] below is the handler on any
    answer, in binary64. *)

Fixpoint get_member (key : string) (members : list (string * json)) : option json :=
  match members with
  | [] => None
  | (k, v) :: rest =>
      match get_member key rest with
      | Some later => Some later
      | None => if String.eqb k key then Some v else None
      end
  end.

Definition read_element (j : json) : option element :=
  match j with
  | JObject members =>
      match get_member "text" members, get_member "x" members,
            get_member "y" members with
      | Some (JString t), Some (JNumber fx), Some (JNumber fy) =>
          match exact_of_float fx, exact_of_float fy with
          | Some px, Some py =>
              Some {| text := t; x := px; y := py;
                      fontSize := get_member "fontSize" members |}
          | _, _ => None
          end
      | _, _, _ => None
      end
  | _ => None
  end.

Fixpoint read_elements (items : list json) : option (list element) :=
  match items with
  | [] => Some []
  | j :: rest =>
      match read_element j, read_elements rest with
      | Some e, Some es => Some (e :: es)
      | _, _ => None
      end
  end.

Definition read_textElements (data : json) : option textElementsField :=
  match data with
  | JNull => None
  | JObject members =>
      match get_member "textElements" members with
      | Some (JArray items) =>
          match read_elements items with
          | Some es => Some (ArrayOf es)
          | None => None
          end
      | _ => Some NotAnArray
      end
  | _ => Some NotAnArray
  end.

(** ** The handler on any answer, in binary64

    [element: any]: the callback reads [fontSize], [x], [y] and [text] off
    whatever value stands in the array.  Reading a property of [null]
    throws a TypeError, which leaves the handler; every other value has the
    property or gives [undefined].  The arithmetic converts its operand to
    a number and computes in binary64, and [fillText] converts its first
    argument to a string.  Converting an object goes through its
    [toString]: an object of [JSON.parse] with a member of that name has
    lost the method it inherits, and the conversion throws a TypeError.
    The conversions between strings and numbers are the two standard ones
    and are parameters here. *)

Module Untyped.

(** How a piece of the handler ends. *)
Inductive completion (A : Type) : Type :=
| Normal (a : A)
| TypeError.
Arguments Normal {A} a.
Arguments TypeError {A}.

(** [value.key], for a value other than [null] and for the keys the
    handler reads, none of which a string, a number, a boolean or an array
    has. *)
Definition property (value : json) (key : string) : option json :=
  match value with
  | JObject members => get_member key members
  | _ => None
  end.

(** Whether [ToPrimitive] throws on a value of [JSON.parse].  An object
    is converted by its [toString], then by its [valueOf]: a member
    [toString] is never callable, and the inherited [valueOf] returns the
    object, so an object with a member [toString] cannot be converted.  An
    array is joined, which converts each item that is not [null]. *)
Fixpoint ToPrimitive_throws (v : json) : bool :=
  match v with
  | JObject members =>
      match get_member "toString" members with
      | Some _ => true
      | None => false
      end
  | JArray items => existsb ToPrimitive_throws items
  | _ => false
  end.

(** The same on a property that may be missing. *)
Definition conversion_throws (v : option json) : bool :=
  match v with
  | None => false
  | Some v => ToPrimitive_throws v
  end.

(** The elements on which the callback throws: [null], and a value whose
    [x], [y] or [text] cannot be converted. *)
Definition element_throws (element : json) : bool :=
  match element with
  | JNull => true
  | _ =>
      conversion_throws (property element "x")
      || conversion_throws (property element "y")
      || conversion_throws (property element "text")
  end.

(** An element of the shape the recognizer is asked for: an object with a
    string [text] and numbers [x] and [y], of any value. *)
Definition fragment_shape (element : json) : bool :=
  match element with
  | JObject members =>
      match get_member "text" members, get_member "x" members,
            get_member "y" members with
      | Some (JString _), Some (JNumber _), Some (JNumber _) => true
      | _, _, _ => false
      end
  | _ => false
  end.

(** The answers on which the handler throws: [null], or an array of
    elements with such an element in it. *)
Definition handler_throws (data : json) : bool :=
  match data with
  | JNull => true
  | _ =>
      match property data "textElements" with
      | Some (JArray elements) => existsb element_throws elements
      | _ => false
      end
  end.

Section Conversions.

(** [ToNumber] on a string, and [Number::toString]. *)
Variable StringToNumber : string -> float.
Variable NumberToString : float -> string.

(** [ToString] on a value of [JSON.parse] that can be converted; an array
    joins its items with commas, [null] items counting as empty. *)
Fixpoint ToString (v : json) : string :=
  match v with
  | JNull => "null"
  | JBool b => if b then "true" else "false"
  | JNumber n => NumberToString n
  | JString s => s
  | JArray items =>
      String.concat ","
        (map (fun item => match item with
                          | JNull => ""
                          | _ => ToString item
                          end) items)
  | JObject _ => "[object Object]"
  end.

(** The same on a property that may be missing. *)
Definition ToString_property (v : option json) : string :=
  match v with
  | None => "undefined"
  | Some v => ToString v
  end.

(** [ToNumber] on a property that may be missing and can be converted; an
    array or an object goes through its string. *)
Definition ToNumber (v : option json) : float :=
  match v with
  | None => nan
  | Some JNull => 0%float
  | Some (JBool b) => if b then 1%float else 0%float
  | Some (JNumber n) => n
  | Some (JString s) => StringToNumber s
  | Some (JArray items) => StringToNumber (ToString (JArray items))
  | Some (JObject members) => StringToNumber (ToString (JObject members))
  end.

(** The callback of [forEach].  Whatever it has done to the canvas is
    lost when it throws. *)
Definition draw_element (element : json) (c : canvas) : completion canvas :=
  match element with
  | JNull => TypeError
  | _ =>
      let fontSize := ThemedLayout.fontSize_px (property element "fontSize") in
      if conversion_throws (property element "x")
         || conversion_throws (property element "y")
         || conversion_throws (property element "text")
      then TypeError
      else
      Normal
        ((set_font (string_of_Z fontSize ++ "px Arial, sans-serif") ;;
          reading (fun canvas =>
            let x := ((ToNumber (property element "x") / 100)
                      * number_of_Z (width canvas))%float in
            let y := ((ToNumber (property element "y") / 100)
                      * number_of_Z (height canvas))%float in
            fillText_number (ToString_property (property element "text")) x y))
           c)
  end.

(** [forEach], left by the first callback that throws. *)
Fixpoint forEach (elements : list json) (c : canvas) : completion canvas :=
  match elements with
  | [] => Normal c
  | element :: rest =>
      match draw_element element c with
      | Normal c' => forEach rest c'
      | TypeError => TypeError
      end
  end.

(** "Draw extracted text", from [ctx.fillStyle = "white"] on; reading
    [data.textElements] throws when [data] is [null]. *)
Definition composite (data : json) (c : canvas) : completion canvas :=
  let c := (set_fillStyle (Color "white") ;; set_textAlign AlignCenter) c in
  match data with
  | JNull => TypeError
  | _ =>
      match property data "textElements" with
      | Some (JArray elements) => forEach elements c
      | _ => Normal c
      end
  end.

Definition render (size : Z * Z) (data : json) : completion canvas :=
  composite data (ThemedLayout.background_stage size createElement_canvas).

(** The handler: a TypeError leaves it before [setProcessedImage] and the
    toast, and nothing catches it. *)
Definition img_onload (size : Z * Z) (data : json) : list effect :=
  match render size data with
  | Normal canvas =>
      [SetProcessedImage (toDataURL "image/png" canvas); Toast success_toast]
  | TypeError => []
  end.

(** What one run meets; [invoked] is the error or the [data] of
    [supabase.functions.invoke]. *)
Record world := {
  invoked : jsError + json;
  context2d : bool;
  loaded : option (Z * Z)
}.

Definition processImage (selectedImage : option string) (w : world)
    : list effect :=
  match selectedImage with
  | None => []
  | Some EmptyString => []
  | Some _ =>
      [SetIsProcessing true] ++
      match invoked w with
      | inl error =>
          [ConsoleError "Error processing image:" (message error);
           Toast (failure_toast error);
           SetIsProcessing false]
      | inr data =>
          if context2d w then
            [SetIsProcessing false] ++
            match loaded w with
            | Some size => img_onload size data
            | None => []
            end
          else
            [ConsoleError "Error processing image:" "Canvas not supported";
             Toast (failure_toast {| message := "Canvas not supported" |});
             SetIsProcessing false]
      end
  end.

(** What the canvas paints for one element of the array on a canvas [w]
    by [h]: the text at the position computed in binary64, or nothing when
    that position is not finite. *)
Definition text_painting (w h : Z) (element : json) : list drawop :=
  let x := position_binary64 (ToNumber (property element "x")) (number_of_Z w) in
  let y := position_binary64 (ToNumber (property element "y")) (number_of_Z h) in
  match exact_of_float x, exact_of_float y with
  | Some qx, Some qy =>
      [FillText (Color "white")
         (string_of_Z (ThemedLayout.fontSize_px (property element "fontSize"))
          ++ "px Arial, sans-serif")
         AlignCenter (ToString_property (property element "text")) qx qy]
  | _, _ => []
  end.

End Conversions.

End Untyped.

(** ** What a run shows

    Two readings of the effects of a run. *)

(** The images a run delivers. *)
Definition delivered (trace : list effect) : list dataURL :=
  flat_map (fun ef => match ef with SetProcessedImage url => [url] | _ => [] end) trace.

(** The failure notices a run shows. *)
Definition failure_notices (trace : list effect) : list toastMessage :=
  flat_map (fun ef => match ef with
                      | Toast t => match variant t with
                                   | VariantDestructive => [t]
                                   | VariantDefault => []
                                   end
                      | _ => []
                      end) trace.

(** How many times the loop entered at [i] runs on a canvas [h] high. *)
Definition rows_from (i h : Z) : nat := Z.to_nat ((h - i + 19) / 20).

(** ** The page around [processImage]

    The component keeps three pieces of state; the handlers below act on
    them through their setters. *)

Record pageState := {
  selectedImage : option string;
  processedImage : option dataURL;
  isProcessing : bool
}.

(** [useState(null)], [useState(null)], [useState(false)]. *)
Definition initial_page : pageState :=
  {| selectedImage := None; processedImage := None; isProcessing := false |}.

(** What an effect of a run does to the state: the setters store their
    argument, the toast and the console leave the state alone. *)
Definition apply_effect (st : pageState) (ef : effect) : pageState :=
  match ef with
  | SetIsProcessing b =>
      {| selectedImage := selectedImage st;
         processedImage := processedImage st; isProcessing := b |}
  | SetProcessedImage url =>
      {| selectedImage := selectedImage st;
         processedImage := Some url; isProcessing := isProcessing st |}
  | ConsoleError _ _ => st
  | Toast _ => st
  end.

Definition after_run (st : pageState) (trace : list effect) : pageState :=
  fold_left apply_effect trace st.

(** The success notices a run shows. *)
Definition success_notices (trace : list effect) : list toastMessage :=
  flat_map (fun ef => match ef with
                      | Toast t => match variant t with
                                   | VariantDefault => [t]
                                   | VariantDestructive => []
                                   end
                      | _ => []
                      end) trace.

(** A file of the input or of the drop: its [type], and the data URL the
    [FileReader] hands to [reader.onload] ([None]: the reader never
    loads). *)
Record file := {
  file_type : string;
  read_result : option string
}.

(** What the other handlers do. *)
Inductive handlerEffect : Type :=
| PreventDefault
| SetSelectedImage (v : option string)
| SetProcessedImageNull
| Notify (t : toastMessage)
| ClickLink (download : string) (href : dataURL).

Definition invalid_file_toast : toastMessage :=
  {| title := "Invalid file type";
     description := "Please select an image file";
     variant := VariantDestructive |}.

(** [handleFileSelect], on [e.target.files?.[0]]. *)
Definition handleFileSelect (first : option file) : list handlerEffect :=
  match first with
  | None => []
  | Some file =>
      if negb (String.prefix "image/" (file_type file)) then
        [Notify invalid_file_toast]
      else
        match read_result file with
        | Some result => [SetSelectedImage (Some result); SetProcessedImageNull]
        | None => []
        end
  end.

(** [handleDrop], on [e.dataTransfer.files?.[0]]. *)
Definition handleDrop (first : option file) : list handlerEffect :=
  PreventDefault ::
  match first with
  | None => []
  | Some file =>
      if negb (String.prefix "image/" (file_type file)) then
        [Notify invalid_file_toast]
      else
        match read_result file with
        | Some result => [SetSelectedImage (Some result); SetProcessedImageNull]
        | None => []
        end
  end.

(** [downloadImage] *)
Definition downloadImage (st : pageState) : list handlerEffect :=
  match processedImage st with
  | None => []
  | Some url => [ClickLink "processed-slip.png" url]
  end.

(** The [onClick] of the button "Upload New". *)
Definition uploadNew : list handlerEffect :=
  [SetSelectedImage None; SetProcessedImageNull].

Definition apply_handlerEffect (st : pageState) (ef : handlerEffect) : pageState :=
  match ef with
  | SetSelectedImage v =>
      {| selectedImage := v;
         processedImage := processedImage st; isProcessing := isProcessing st |}
  | SetProcessedImageNull =>
      {| selectedImage := selectedImage st;
         processedImage := None; isProcessing := isProcessing st |}
  | PreventDefault => st
  | Notify _ => st
  | ClickLink _ _ => st
  end.

Definition after_handler (st : pageState) (efs : list handlerEffect) : pageState :=
  fold_left apply_handlerEffect efs st.

(** The files the browser was asked to save. *)
Definition downloads (efs : list handlerEffect) : list (string * dataURL) :=
  flat_map (fun ef => match ef with
                      | ClickLink name href => [(name, href)]
                      | _ => []
                      end) efs.

(** A click on "Process Image" in the revision that lays the elements
    out: [processImage] reads [selectedImage] from the state. *)
Definition click_process (st : pageState) (w : world) : pageState :=
  after_run st (ThemedLayout.processImage (selectedImage st) w).

(** What the returned markup shows, as far as it depends on the state:
    the upload card or the two panels, the processed image or its
    placeholder, and the buttons. *)
Record view := {
  upload_card : bool;
  original_panel : option string;
  processed_panel : option dataURL;
  placeholder : bool;
  upload_new_button : bool;
  process_button : option (bool * string);
  download_button : bool
}.

(** A string in a condition: [null] and the empty string are falsy. *)
Definition truthy (v : option string) : bool :=
  match v with
  | None => false
  | Some EmptyString => false
  | Some _ => true
  end.

Definition render_page (st : pageState) : view :=
  let selected := truthy (selectedImage st) in
  let processed := match processedImage st with Some _ => true | None => false end in
  {| upload_card := negb selected;
     original_panel := if selected then selectedImage st else None;
     processed_panel := if selected then processedImage st else None;
     placeholder := selected && negb processed;
     upload_new_button := selected;
     process_button :=
       if selected
       then Some (isProcessing st,
                  if isProcessing st then "Processing..." else "Process Image")
       else None;
     download_button := selected && processed |}.

(** * Properties *)

(** ** Arithmetic of positions *)


(** In binary64 the positions of the scenarios are the same numbers: the
    corners and the centre of an 800 by 1200 canvas are exact, and so are
    the half pixel on a canvas 801 wide and the positions outside the
    canvas. *)
Example positions_binary64 :
  position_binary64 0 800 = 0%float
  /\ position_binary64 100 800 = 800%float
  /\ position_binary64 100 1200 = 1200%float
  /\ position_binary64 50 800 = 400%float
  /\ position_binary64 50 1200 = 600%float
  /\ position_binary64 50 801 = 400.5%float
  /\ position_binary64 250 800 = 2000%float
  /\ position_binary64 (-10) 1200 = (-120)%float.
Proof. repeat split. Qed.

(** Two canonical rationals with the same fraction are the same number. *)
Ltac same_numbers :=
  repeat (f_equal; try (apply Qc_is_canon; vm_compute; reflexivity)).

(** ** Binary64 arithmetic

    The facts about the multiplication of binary64 numbers that the
    corners of the canvas need: [1 * w] is [w], [0 * w] is zero for a
    finite [w], and an integer below [2^53] is a binary64 number. *)

Lemma digits_iter_xO (k p : positive) :
  digits2_pos (Pos.iter xO p k) = (digits2_pos p + k)%positive.
Proof.
  revert p. induction k using Pos.peano_ind; intros p.
  - simpl. lia.
  - rewrite Pos.iter_succ. simpl. rewrite IHk. lia.
Qed.

Lemma digits2_pos_bound (p : positive) (n : Z) :
  0 <= n -> Zpos p < 2 ^ n -> Zpos (digits2_pos p) <= n.
Proof.
  revert n. induction p; intros n Hn H; simpl.
  - rewrite Pos2Z.inj_succ.
    assert (0 < n) by (destruct (Z.eq_dec n 0); [subst; simpl in H; lia | lia]).
    replace n with (Z.succ (n - 1)) in H by lia.
    rewrite Z.pow_succ_r in H by lia.
    specialize (IHp (n - 1)). lia.
  - rewrite Pos2Z.inj_succ.
    assert (0 < n) by (destruct (Z.eq_dec n 0); [subst; simpl in H; lia | lia]).
    replace n with (Z.succ (n - 1)) in H by lia.
    rewrite Z.pow_succ_r in H by lia.
    specialize (IHp (n - 1)). lia.
  - assert (0 < n) by (destruct (Z.eq_dec n 0); [subst; simpl in H; lia | lia]).
    lia.
Qed.

Lemma fexp64_eq (x : Z) : fexp prec emax x = Z.max (x - 53) (-1074).
Proof. reflexivity. Qed.

(** Rounding a mantissa that already has its canonical exponent changes
    nothing. *)
Lemma binary_round_aux_canonical (s : bool) (m : positive) (e : Z) :
  bounded prec emax m e = true ->
  binary_round_aux prec emax s (Zpos m) e loc_Exact = S754_finite s m e.
Proof.
  unfold bounded, canonical_mantissa. intros H.
  apply andb_prop in H. destruct H as [Hc He].
  apply Z.eqb_eq in Hc.
  unfold binary_round_aux, shr_fexp. cbn [Zdigits2 shr_record_of_loc].
  rewrite Hc, Z.sub_diag.
  cbn [shr shr_m loc_of_shr_record round_nearest_even Zdigits2 shr_record_of_loc].
  rewrite Hc, Z.sub_diag. cbn [shr shr_m].
  rewrite He. reflexivity.
Qed.

Lemma binary_normalize_small (p : positive) :
  Zpos p < 2 ^ 53 ->
  binary_normalize prec emax (Zpos p) 0 false =
  S754_finite false
    match (53 - Zpos (digits2_pos p))%Z with
    | Zpos k => Pos.iter xO p k
    | _ => p
    end
    (Zpos (digits2_pos p) - 53).
Proof.
  intros Hp.
  pose proof (digits2_pos_bound p 53 ltac:(lia) Hp) as Hd.
  unfold binary_normalize, binary_round, shl_align.
  rewrite fexp64_eq, Z.add_0_r, Z.sub_0_r.
  rewrite Z.max_l by lia.
  destruct (Zpos (digits2_pos p) - 53) as [|k|k] eqn:Hk.
  - replace (53 - Zpos (digits2_pos p)) with 0 by lia.
    rewrite <- Hk at 2.
    replace (Zpos (digits2_pos p) - 53) with 0 by lia.
    apply binary_round_aux_canonical.
    unfold bounded, canonical_mantissa. rewrite fexp64_eq.
    apply andb_true_intro. split; [apply Z.eqb_eq; lia | reflexivity].
  - lia.
  - replace (53 - Zpos (digits2_pos p)) with (Zpos k) by lia.
    apply binary_round_aux_canonical.
    unfold bounded, canonical_mantissa. rewrite fexp64_eq, digits_iter_xO.
    apply andb_true_intro.
    split; [apply Z.eqb_eq; lia | apply Z.leb_le; unfold emax, prec; lia].
Qed.

Lemma SF64mul_one_finite (s : bool) (m : positive) (e : Z) :
  bounded prec emax m e = true ->
  SF64mul (S754_finite false 4503599627370496 (-52)) (S754_finite s m e) =
  S754_finite s m e.
Proof.
  intros H. pose proof H as Hb.
  unfold bounded, canonical_mantissa in H.
  apply andb_prop in H. destruct H as [Hc He]. apply Z.eqb_eq in Hc.
  rewrite fexp64_eq in Hc.
  unfold SF64mul, SFmul. cbn [xorb].
  change (Pos.mul 4503599627370496 m) with (Pos.iter xO m 52).
  unfold binary_round_aux, shr_fexp. cbn [Zdigits2 shr_record_of_loc].
  rewrite digits_iter_xO, fexp64_eq.
  replace (Z.max (Zpos (digits2_pos m + 52) + (-52 + e) - 53) (-1074) - (-52 + e))
    with 52 by lia.
  cbv [shr iter_pos shr_1 orb Pos.iter].
  cbn [shr_m loc_of_shr_record round_nearest_even Zdigits2 shr_record_of_loc].
  rewrite fexp64_eq.
  replace (Z.max (Zpos (digits2_pos m) + (-52 + e + 52) - 53) (-1074) - (-52 + e + 52))
    with 0 by lia.
  cbn [shr shr_m].
  replace (-52 + e + 52) with e by lia.
  rewrite He. reflexivity.
Qed.

(** [1 * w] is [w] for every binary64 number, the infinities and NaN
    included. *)
Lemma mul_1_l (w : float) : (1 * w)%float = w.
Proof.
  apply Prim2SF_inj. rewrite FloatAxioms.mul_spec.
  change (Prim2SF 1) with (S754_finite false 4503599627370496 (-52)).
  pose proof (Prim2SF_valid w) as Hv.
  destruct (Prim2SF w) as [s|s| |s m e]; try reflexivity.
  apply SF64mul_one_finite. exact Hv.
Qed.

Lemma to_Z_of_Z_small (z : Z) :
  0 <= z < 2 ^ 53 -> Uint63.to_Z (Uint63.of_Z z) = z.
Proof.
  intros H. rewrite Uint63.of_Z_spec. apply Z.mod_small.
  unfold Uint63.wB. simpl. lia.
Qed.

Lemma Prim2SF_number_of_Z (z : Z) :
  0 <= z < 2 ^ 53 ->
  Prim2SF (number_of_Z z) = binary_normalize prec emax z 0 false.
Proof.
  intros H. unfold number_of_Z.
  destruct z as [|p|p]; [| |lia];
    rewrite of_uint63_spec, to_Z_of_Z_small by assumption; reflexivity.
Qed.

(** The size of a canvas is the same number in binary64. *)
Lemma exact_of_number_of_Z (z : Z) :
  0 <= z < 2 ^ 53 -> exact_of_float (number_of_Z z) = Some (num_of_Z z).
Proof.
  intros H. unfold exact_of_float. rewrite Prim2SF_number_of_Z by assumption.
  destruct z as [|p|p]; [reflexivity| |lia].
  rewrite binary_normalize_small by lia.
  pose proof (digits2_pos_bound p 53 ltac:(lia) ltac:(lia)) as Hd.
  destruct (Zpos (digits2_pos p) - 53) as [|k|k] eqn:Hk; [|lia|].
  - replace (53 - Zpos (digits2_pos p)) with 0 by lia.
    f_equal. unfold num_of_Z. f_equal. f_equal. simpl. lia.
  - replace (53 - Zpos (digits2_pos p)) with (Zpos k) by lia.
    f_equal. apply Qc_is_canon. unfold num_of_Z. cbn [this Q2Qc].
    rewrite !Qred_correct. unfold Qeq. cbn [Qnum Qden inject_Z].
    change (Pos.iter xO p k) with (shift_pos k p).
    rewrite !shift_pos_correct. ring.
Qed.

Lemma exact_of_zero_mul (w : float) (q : Qc) :
  exact_of_float w = Some q ->
  exact_of_float (0 * w)%float = Some (num_of_Z 0).
Proof.
  unfold exact_of_float. rewrite FloatAxioms.mul_spec.
  change (Prim2SF 0) with (S754_zero false).
  destruct (Prim2SF w) as [s|s| |s m e]; try discriminate; reflexivity.
Qed.

(** The two corners: 0 percent of a size is 0 and 100 percent of it is the
    size. *)
Lemma position_binary64_0 (size : Z) :
  0 <= size < 2 ^ 53 ->
  exact_of_float (position_binary64 0 (number_of_Z size)) = Some (num_of_Z 0).
Proof.
  intros H. unfold position_binary64.
  change (0 / 100)%float with 0%float.
  apply (exact_of_zero_mul _ (num_of_Z size)).
  apply exact_of_number_of_Z. exact H.
Qed.

Lemma position_binary64_100 (size : Z) :
  0 <= size < 2 ^ 53 ->
  exact_of_float (position_binary64 100 (number_of_Z size)) =
  Some (num_of_Z size).
Proof.
  intros H. unfold position_binary64.
  change (100 / 100)%float with 1%float.
  rewrite mul_1_l. apply exact_of_number_of_Z. exact H.
Qed.

(** ** What a statement leaves alone *)

(** [same_frame c c']: the size, the fill style and the alignment of [c]
    are those of [c']. *)
Definition same_frame (c c' : canvas) : Prop :=
  width c' = width c /\ height c' = height c /\
  fillStyle c' = fillStyle c /\ textAlign c' = textAlign c.

Lemma pattern_loop_size (i : Z) (c : canvas) :
  width (pattern_loop i c) = width c /\ height (pattern_loop i c) = height c.
Proof.
  funelim (pattern_loop i c).
  - match goal with IH : _ /\ _ |- _ => destruct IH as [Hw Hh] end.
    simpl in Hw, Hh. split; assumption.
  - split; reflexivity.
Qed.

(** The gradient handed to [fillRect] carries the stops in the order they
    were added. *)
Lemma addColorStop_all (stops : list colorStop) (g : canvasGradient) :
  fold_left (fun g s => addColorStop (offset s) (color s) g) stops g =
  {| gx0 := gx0 g; gy0 := gy0 g; gx1 := gx1 g; gy1 := gy1 g;
     colorStops := colorStops g ++ stops |}.
Proof.
  revert g. induction stops as [|[off col] stops IH]; intros g; simpl.
  - rewrite app_nil_r. destruct g; reflexivity.
  - rewrite IH. simpl. rewrite <- app_assoc. reflexivity.
Qed.

(** One element adds one [FillText], at the position computed from its
    percentages and the size of the canvas, and keeps the frame. *)
Lemma draw_element_drawn (e : element) (c : canvas) :
  drawn (ThemedLayout.draw_element e c) =
  (drawn c ++
   [FillText (fillStyle c)
             (string_of_Z (ThemedLayout.fontSize_px (fontSize e)) ++ "px Arial, sans-serif")
             (textAlign c) (text e)
             ((x e / 100) * width c)%Qc ((y e / 100) * height c)%Qc])%list.
Proof. reflexivity. Qed.

Lemma draw_element_frame (e : element) (c : canvas) :
  same_frame c (ThemedLayout.draw_element e c).
Proof. repeat split. Qed.

Lemma forEach_draw_element (elements : list element) (c : canvas) :
  same_frame c (ThemedLayout.forEach elements ThemedLayout.draw_element c) /\
  drawn (ThemedLayout.forEach elements ThemedLayout.draw_element c) =
  (drawn c ++
   map (fun e =>
          FillText (fillStyle c)
            (string_of_Z (ThemedLayout.fontSize_px (fontSize e)) ++ "px Arial, sans-serif")
            (textAlign c) (text e)
            ((x e / 100) * width c)%Qc ((y e / 100) * height c)%Qc)
       elements)%list.
Proof.
  revert c. induction elements as [|e elements IH]; intros c.
  - simpl. rewrite app_nil_r. repeat split.
  - unfold ThemedLayout.forEach in *. simpl fold_left.
    destruct (IH (ThemedLayout.draw_element e c)) as [Hframe Hdrawn].
    destruct (draw_element_frame e c) as (Hw & Hh & Hf & Ha).
    destruct Hframe as (Hw' & Hh' & Hf' & Ha').
    split.
    + repeat split; congruence.
    + rewrite Hdrawn, draw_element_drawn, Hw, Hh, Hf, Ha.
      rewrite <- app_assoc. reflexivity.
Qed.

Lemma background_stage_size (size : Z * Z) (c : canvas) :
  width (ThemedLayout.background_stage size c) = fst size /\
  height (ThemedLayout.background_stage size c) = snd size.
Proof.
  unfold ThemedLayout.background_stage, renderBackground, pattern_overlay, seq_stmt.
  match goal with
  | |- width (pattern_loop 0 ?c0) = _ /\ _ =>
      destruct (pattern_loop_size 0 c0) as [Hw Hh]; rewrite Hw, Hh
  end.
  split; reflexivity.
Qed.

(** What the handler has painted when it encodes the canvas: the themed
    background, then one text per element, in the order of the array. *)
Lemma render_drawn (size : Z * Z) (elements : list element) :
  drawn (ThemedLayout.render size (ArrayOf elements)) =
  (drawn (ThemedLayout.background_stage size createElement_canvas) ++
   map (fun e =>
          FillText (Color "white")
            (string_of_Z (ThemedLayout.fontSize_px (fontSize e)) ++ "px Arial, sans-serif")
            AlignCenter (text e)
            ((x e / 100) * fst size)%Qc ((y e / 100) * snd size)%Qc)
       elements)%list.
Proof.
  unfold ThemedLayout.render, ThemedLayout.composite, seq_stmt.
  destruct (background_stage_size size createElement_canvas) as [Hw Hh].
  match goal with
  | |- drawn (ThemedLayout.forEach _ _ ?c0) = _ =>
      destruct (forEach_draw_element elements c0) as [_ Hdrawn];
      rewrite Hdrawn
  end.
  simpl. rewrite Hw, Hh. reflexivity.
Qed.

Lemma render_size (size : Z * Z) (data : textElementsField) :
  width (ThemedLayout.render size data) = fst size /\
  height (ThemedLayout.render size data) = snd size.
Proof.
  unfold ThemedLayout.render, ThemedLayout.composite, seq_stmt.
  destruct (background_stage_size size createElement_canvas) as [Hw Hh].
  destruct data as [|elements].
  - simpl. split; assumption.
  - match goal with
    | |- width (ThemedLayout.forEach _ _ ?c0) = _ /\ _ =>
        destruct (forEach_draw_element elements c0) as [(Hw' & Hh' & _) _];
        rewrite Hw', Hh'
    end.
    simpl. split; assumption.
Qed.

(** ** The background, painting by painting *)

Lemma rows_from_done (i h : Z) : h <= i -> rows_from i h = 0%nat.
Proof.
  intros H. unfold rows_from.
  assert ((h - i + 19) / 20 <= 0); [|lia].
  assert ((h - i + 19) / 20 < 1); [|lia].
  apply Z.div_lt_upper_bound; lia.
Qed.

Lemma rows_from_step (i h : Z) : i < h -> rows_from i h = S (rows_from (i + 20) h).
Proof.
  intros H. unfold rows_from.
  replace (h - i + 19) with ((h - (i + 20) + 19) + 1 * 20) by lia.
  rewrite Z.div_add by lia.
  assert (0 <= (h - (i + 20) + 19) / 20) by (apply Z.div_pos; lia).
  lia.
Qed.

Lemma fillRect_canvas (rx ry rw rh : Qc) (c : canvas) :
  drawn (fillRect rx ry rw rh c) = (drawn c ++ [FillRect (fillStyle c) rx ry rw rh])%list
  /\ fillStyle (fillRect rx ry rw rh c) = fillStyle c
  /\ width (fillRect rx ry rw rh c) = width c
  /\ height (fillRect rx ry rw rh c) = height c.
Proof. repeat split. Qed.

Lemma pattern_loop_drawn (i : Z) (c : canvas) :
  drawn (pattern_loop i c) =
  (drawn c ++
   map (fun k => FillRect (fillStyle c) 0%Qc (num_of_Z (i + 20 * Z.of_nat k))
                   (num_of_Z (width c)) 1%Qc)
       (seq 0 (rows_from i (height c))))%list.
Proof.
  funelim (pattern_loop i c).
  - match goal with IH : drawn _ = _ |- _ => rewrite IH end.
    destruct (fillRect_canvas 0%Qc (num_of_Z i) (num_of_Z (width c)) 1%Qc c)
      as (Hd & Hf & Hw & Hh).
    rewrite Hd, Hf, Hw, Hh.
    rewrite (rows_from_step i (height c)) by assumption.
    rewrite <- app_assoc. f_equal.
    rewrite <- cons_seq, <- seq_shift, map_cons, map_map.
    change (Z.of_nat 0) with 0. rewrite Z.mul_0_r, Z.add_0_r.
    cbn [app]. f_equal.
    apply map_ext. intros k. do 2 f_equal. lia.
  - rewrite rows_from_done by lia. simpl. rewrite app_nil_r. reflexivity.
Qed.

Lemma gradient_fill_drawn (stops : list colorStop) (c : canvas) :
  drawn (gradient_fill stops c) =
    (drawn c ++
     [FillRect
        (Gradient {| gx0 := 0; gy0 := 0;
                     gx1 := num_of_Z (width c); gy1 := num_of_Z (height c);
                     colorStops := stops |})
        0 0 (num_of_Z (width c)) (num_of_Z (height c))])%list.
Proof.
  unfold gradient_fill, reading, seq_stmt. simpl.
  rewrite addColorStop_all. reflexivity.
Qed.

Lemma renderBackground_ops (stops : list colorStop) (w h : Z) :
  drawn (renderBackground stops (reset_canvas w h)) =
  (FillRect
     (Gradient {| gx0 := 0%Qc; gy0 := 0%Qc;
                  gx1 := num_of_Z w; gy1 := num_of_Z h;
                  colorStops := stops |})
     0%Qc 0%Qc (num_of_Z w) (num_of_Z h) ::
   map (fun k => FillRect (Color "rgba(0, 0, 0, 0.05)") 0%Qc
                   (num_of_Z (20 * Z.of_nat k)) (num_of_Z w) 1%Qc)
       (seq 0 (rows_from 0 h)))%list.
Proof.
  unfold renderBackground, pattern_overlay, seq_stmt.
  rewrite pattern_loop_drawn.
  pose proof (gradient_fill_drawn stops (reset_canvas w h)) as Hg.
  set (c1 := gradient_fill stops (reset_canvas w h)) in *.
  change (drawn (set_fillStyle (Color "rgba(0, 0, 0, 0.05)") c1))
    with (drawn c1).
  change (fillStyle (set_fillStyle (Color "rgba(0, 0, 0, 0.05)") c1))
    with (Color "rgba(0, 0, 0, 0.05)").
  change (width (set_fillStyle (Color "rgba(0, 0, 0, 0.05)") c1)) with w.
  change (height (set_fillStyle (Color "rgba(0, 0, 0, 0.05)") c1)) with h.
  rewrite Hg. cbn [drawn width height reset_canvas app].
  reflexivity.
Qed.

Lemma renderBackground_length (stops : list colorStop) (w h : Z) :
  length (drawn (renderBackground stops (reset_canvas w h))) =
  S (Z.to_nat ((h + 19) / 20)).
Proof.
  rewrite renderBackground_ops. cbn [length]. rewrite length_map, length_seq.
  unfold rows_from. rewrite Z.sub_0_r. reflexivity.
Qed.

(** ** The handler on any answer *)

(** An element on which the callback does not throw adds what
    [text_painting] says, and keeps the frame. *)
Lemma untyped_draw_element_ends
    (StringToNumber : string -> float) (NumberToString : float -> string)
    (element : json) (c : canvas) :
  Untyped.element_throws element = false ->
  fillStyle c = Color "white" -> textAlign c = AlignCenter ->
  exists c',
    Untyped.draw_element StringToNumber NumberToString element c =
      Untyped.Normal c'
    /\ same_frame c c'
    /\ drawn c' =
       (drawn c ++
        Untyped.text_painting StringToNumber NumberToString
          (width c) (height c) element)%list.
Proof.
  intros Hthrows Hfill Halign.
  assert (Hrun :
    Untyped.draw_element StringToNumber NumberToString element c =
    Untyped.Normal
      ((set_font
          (string_of_Z
             (ThemedLayout.fontSize_px (Untyped.property element "fontSize"))
           ++ "px Arial, sans-serif") ;;
        reading (fun canvas =>
          fillText_number
            (Untyped.ToString_property NumberToString
               (Untyped.property element "text"))
            ((Untyped.ToNumber StringToNumber NumberToString
                (Untyped.property element "x") / 100)
             * number_of_Z (width canvas))%float
            ((Untyped.ToNumber StringToNumber NumberToString
                (Untyped.property element "y") / 100)
             * number_of_Z (height canvas))%float)) c)).
  { unfold Untyped.draw_element, Untyped.element_throws in *.
    destruct element; try discriminate Hthrows;
      cbv zeta; rewrite Hthrows; reflexivity. }
  eexists. split; [exact Hrun|].
  unfold Untyped.text_painting, seq_stmt, reading, fillText_number,
    position_binary64.
  cbn [set_font width height].
  destruct (exact_of_float _) as [qx|]; [destruct (exact_of_float _) as [qy|]|].
  - split; [repeat split|]. cbn. rewrite Hfill, Halign. reflexivity.
  - split; [repeat split|]. cbn. rewrite app_nil_r. reflexivity.
  - split; [repeat split|]. cbn. rewrite app_nil_r. reflexivity.
Qed.

Lemma untyped_draw_element_throws
    (StringToNumber : string -> float) (NumberToString : float -> string)
    (element : json) (c : canvas) :
  Untyped.element_throws element = true ->
  Untyped.draw_element StringToNumber NumberToString element c =
  Untyped.TypeError.
Proof.
  unfold Untyped.draw_element, Untyped.element_throws.
  destruct element; intros Hthrows; try reflexivity;
    cbv zeta; rewrite Hthrows; reflexivity.
Qed.

Lemma untyped_forEach_ends
    (StringToNumber : string -> float) (NumberToString : float -> string)
    (elements : list json) (c : canvas) :
  existsb Untyped.element_throws elements = false ->
  fillStyle c = Color "white" -> textAlign c = AlignCenter ->
  exists c',
    Untyped.forEach StringToNumber NumberToString elements c =
      Untyped.Normal c'
    /\ same_frame c c'
    /\ drawn c' =
       (drawn c ++
        flat_map (Untyped.text_painting StringToNumber NumberToString
                    (width c) (height c)) elements)%list.
Proof.
  revert c. induction elements as [|element elements IH];
    intros c Hthrows Hfill Halign.
  - exists c. simpl. rewrite app_nil_r. repeat split.
  - cbn [existsb] in Hthrows. apply orb_false_elim in Hthrows.
    destruct Hthrows as [Hfirst Hrest].
    destruct (untyped_draw_element_ends StringToNumber NumberToString
                element c Hfirst Hfill Halign)
      as (c1 & Hdraw & (Hw & Hh & Hf & Ha) & Hdrawn).
    destruct (IH c1 Hrest) as (c' & Hrun & (Hw' & Hh' & Hf' & Ha') & Hdrawn');
      [congruence | congruence |].
    exists c'. cbn [Untyped.forEach]. rewrite Hdraw. split; [exact Hrun|].
    split; [repeat split; congruence|].
    rewrite Hdrawn', Hdrawn, Hw, Hh. cbn [flat_map].
    rewrite <- app_assoc. reflexivity.
Qed.

Lemma untyped_forEach_throws
    (StringToNumber : string -> float) (NumberToString : float -> string)
    (elements : list json) (c : canvas) :
  existsb Untyped.element_throws elements = true ->
  Untyped.forEach StringToNumber NumberToString elements c =
  Untyped.TypeError.
Proof.
  revert c. induction elements as [|element elements IH]; intros c Hthrows.
  - discriminate Hthrows.
  - cbn [existsb Untyped.forEach] in *.
    destruct (Untyped.element_throws element) eqn:Hfirst.
    + rewrite untyped_draw_element_throws by exact Hfirst. reflexivity.
    + destruct (Untyped.draw_element StringToNumber NumberToString element c);
        [apply IH; exact Hthrows | reflexivity].
Qed.

(** The handler on an array of elements none of which makes it throw: it
    ends, on a canvas of the size of the image, with the background and
    then what each element paints. *)
Lemma untyped_render_elements
    (StringToNumber : string -> float) (NumberToString : float -> string)
    (size : Z * Z) (elements : list json) :
  existsb Untyped.element_throws elements = false ->
  exists c',
    Untyped.render StringToNumber NumberToString size
      (JObject [("textElements", JArray elements)]) =
      Untyped.Normal c'
    /\ width c' = fst size /\ height c' = snd size
    /\ drawn c' =
       (drawn (ThemedLayout.background_stage size createElement_canvas) ++
        flat_map (Untyped.text_painting StringToNumber NumberToString
                    (fst size) (snd size)) elements)%list.
Proof.
  intros Hthrows.
  unfold Untyped.render, Untyped.composite, Untyped.property.
  change (get_member "textElements" [("textElements", JArray elements)])
    with (Some (JArray elements)).
  cbv beta iota zeta.
  destruct (background_stage_size size createElement_canvas) as [Hw Hh].
  match goal with
  | |- exists c', Untyped.forEach _ _ _ ?c0 = _ /\ _ =>
      destruct (untyped_forEach_ends StringToNumber NumberToString
                  elements c0 Hthrows eq_refl eq_refl)
        as (c' & Hrun & (Hw' & Hh' & _) & Hdrawn)
  end.
  exists c'. split; [exact Hrun|].
  unfold seq_stmt in Hw', Hh', Hdrawn. cbn in Hw', Hh', Hdrawn.
  rewrite Hw in Hw', Hdrawn. rewrite Hh in Hh', Hdrawn.
  repeat split; assumption.
Qed.

(** Strings and numbers convert: an element of the asked shape never
    makes the callback throw. *)
Lemma fragment_shape_converts (elements : list json) :
  forallb Untyped.fragment_shape elements = true ->
  existsb Untyped.element_throws elements = false.
Proof.
  induction elements as [|element elements IH]; [reflexivity|].
  cbn [forallb existsb]. intros H. apply andb_prop in H.
  destruct H as [Hshape Hrest]. rewrite (IH Hrest), orb_false_r.
  unfold Untyped.fragment_shape in Hshape.
  destruct element as [|b|n|s|items|members]; try discriminate Hshape.
  unfold Untyped.element_throws, Untyped.property.
  destruct (get_member "text" members) as [[|b|n|s|items|inner]|];
    try discriminate Hshape.
  destruct (get_member "x" members) as [[|b|n|s'|items|inner]|];
    try discriminate Hshape.
  destruct (get_member "y" members) as [[|b|n'|s'|items|inner]|];
    try discriminate Hshape.
  reflexivity.
Qed.

(** The handler throws on the answers of [handler_throws], and on no
    other. *)
Lemma untyped_render_throws
    (StringToNumber : string -> float) (NumberToString : float -> string)
    (size : Z * Z) (data : json) :
  if Untyped.handler_throws data
  then Untyped.render StringToNumber NumberToString size data =
       Untyped.TypeError
  else exists c',
       Untyped.render StringToNumber NumberToString size data =
       Untyped.Normal c'.
Proof.
  unfold Untyped.render, Untyped.composite, Untyped.handler_throws.
  generalize (ThemedLayout.background_stage size createElement_canvas).
  intros c.
  destruct data as [|b|n|s|items|members]; cbv beta iota zeta;
    try reflexivity; try (eexists; reflexivity).
  cbn [Untyped.property].
  destruct (get_member "textElements" members) as [[|b|n|s|elements|inner]|];
    try (eexists; reflexivity).
  destruct (existsb Untyped.element_throws elements) eqn:Hthrows.
  - apply untyped_forEach_throws. exact Hthrows.
  - destruct (untyped_forEach_ends StringToNumber NumberToString elements
                ((set_fillStyle (Color "white") ;; set_textAlign AlignCenter) c)
                Hthrows eq_refl eq_refl) as (c' & Hrun & _).
    exists c'. exact Hrun.
Qed.

(** Two answers on which the handler throws: a [null] element, and a
    coordinate that is an object with a member [toString]. *)
Example answers_that_throw
    (StringToNumber : string -> float) (NumberToString : float -> string) :
  Untyped.render StringToNumber NumberToString (800, 1200)
    (JObject [("textElements", JArray [JNull])]) = Untyped.TypeError
  /\ Untyped.render StringToNumber NumberToString (800, 1200)
       (JObject
          [("textElements",
            JArray [JObject [("text", JString "TOTAL");
                             ("x", JObject [("toString", JNull)]);
                             ("y", JNumber 50)]])]) = Untyped.TypeError.
Proof. split; reflexivity. Qed.

(** ** The two layouts

    [ThemedLayout] is [Untyped] on the answers [read_textElements] reads,
    as long as binary64 computes the positions without rounding. *)

Lemma untyped_draw_element_exact
    (StringToNumber : string -> float) (NumberToString : float -> string)
    (members : list (string * json)) (t : string) (fx fy : float)
    (e : element) (c : canvas) :
  get_member "text" members = Some (JString t) ->
  get_member "x" members = Some (JNumber fx) ->
  get_member "y" members = Some (JNumber fy) ->
  read_element (JObject members) = Some e ->
  exact_of_float (position_binary64 fx (number_of_Z (width c))) =
    Some ((x e / 100) * width c)%Qc ->
  exact_of_float (position_binary64 fy (number_of_Z (height c))) =
    Some ((y e / 100) * height c)%Qc ->
  Untyped.draw_element StringToNumber NumberToString (JObject members) c =
  Untyped.Normal (ThemedLayout.draw_element e c).
Proof.
  intros Ht Hx Hy Hread Hpx Hpy.
  unfold read_element in Hread. rewrite Ht, Hx, Hy in Hread.
  destruct (exact_of_float fx) as [px|]; [|discriminate].
  destruct (exact_of_float fy) as [py|]; [|discriminate].
  injection Hread as <-.
  unfold Untyped.draw_element, ThemedLayout.draw_element, Untyped.property.
  rewrite Ht, Hx, Hy. cbn [Untyped.conversion_throws
                           Untyped.ToPrimitive_throws orb].
  cbv zeta. f_equal.
  unfold seq_stmt, reading, fillText_number.
  cbn [set_font width height Untyped.ToNumber Untyped.ToString_property
       Untyped.ToString text x y fontSize] in *.
  unfold position_binary64 in Hpx, Hpy. rewrite Hpx, Hpy. reflexivity.
Qed.

Lemma untyped_render_not_array
    (StringToNumber : string -> float) (NumberToString : float -> string)
    (size : Z * Z) (data : json) :
  read_textElements data = Some NotAnArray ->
  Untyped.render StringToNumber NumberToString size data =
  Untyped.Normal (ThemedLayout.render size NotAnArray).
Proof.
  unfold Untyped.render, ThemedLayout.render, seq_stmt.
  generalize (ThemedLayout.background_stage size createElement_canvas).
  intros c.
  unfold Untyped.composite, ThemedLayout.composite, read_textElements,
    Untyped.property, seq_stmt.
  destruct data as [|b|n|s|items|members]; try discriminate;
    try (intros _; reflexivity).
  destruct (get_member "textElements" members) as [[|b|n|s|elements|inner]|];
    try (intros _; reflexivity).
  destruct (read_elements elements); discriminate.
Qed.

Lemma untyped_render_one_exact
    (StringToNumber : string -> float) (NumberToString : float -> string)
    (size : Z * Z) (members : list (string * json)) (t : string)
    (fx fy : float) (e : element) :
  get_member "text" members = Some (JString t) ->
  get_member "x" members = Some (JNumber fx) ->
  get_member "y" members = Some (JNumber fy) ->
  read_element (JObject members) = Some e ->
  exact_of_float (position_binary64 fx (number_of_Z (fst size))) =
    Some ((x e / 100) * fst size)%Qc ->
  exact_of_float (position_binary64 fy (number_of_Z (snd size))) =
    Some ((y e / 100) * snd size)%Qc ->
  Untyped.render StringToNumber NumberToString size
    (JObject [("textElements", JArray [JObject members])]) =
  Untyped.Normal (ThemedLayout.render size (ArrayOf [e])).
Proof.
  intros Ht Hx Hy Hread Hpx Hpy.
  unfold Untyped.render, Untyped.composite, ThemedLayout.render,
    ThemedLayout.composite, Untyped.property, ThemedLayout.forEach, seq_stmt.
  change (get_member "textElements"
            [("textElements", JArray [JObject members])])
    with (Some (JArray [JObject members])).
  cbv beta iota zeta. cbn [Untyped.forEach fold_left].
  destruct (background_stage_size size createElement_canvas) as [Hw Hh].
  rewrite (untyped_draw_element_exact StringToNumber NumberToString
             members t fx fy e _ Ht Hx Hy Hread).
  - reflexivity.
  - cbn [width set_textAlign set_fillStyle]. rewrite Hw. exact Hpx.
  - cbn [height set_textAlign set_fillStyle]. rewrite Hh. exact Hpy.
Qed.

(** The answer of the 800 by 1200 scenario, as [JSON.parse] gives it. *)
Lemma untyped_render_total
    (StringToNumber : string -> float) (NumberToString : float -> string) :
  Untyped.render StringToNumber NumberToString (800, 1200)
    (JObject
       [("textElements",
         JArray [JObject [("text", JString "TOTAL"); ("x", JNumber 50);
                          ("y", JNumber 50);
                          ("fontSize", JString "large")]])]) =
  Untyped.Normal
    (ThemedLayout.render (800, 1200)
       (ArrayOf [ {| text := "TOTAL"; x := num_of_Z 50; y := num_of_Z 50;
                     fontSize := Some (JString "large") |} ])).
Proof.
  apply (untyped_render_one_exact StringToNumber NumberToString (800, 1200)
           _ "TOTAL" 50 50);
    try reflexivity; vm_compute; same_numbers.
Qed.

(** ** Positions *)

(** C1 (as amended): a text element is painted at
    [x/100 * canvas.width], [y/100 * canvas.height] as binary64 arithmetic
    computes them, without rounding to whole pixels, and not at all when
    such a product is not finite; on a canvas whose sides are below
    [2^53], an element at [x = 0, y = 0] is painted at [(0, 0)] and one at
    [x = 100, y = 100] at [(width, height)]. *)
Theorem position_is_binary64_percentage
    (StringToNumber : string -> float) (NumberToString : float -> string)
    (members : list (string * json)) (t : string) (fx fy : float)
    (c : canvas) :
  get_member "text" members = Some (JString t) ->
  get_member "x" members = Some (JNumber fx) ->
  get_member "y" members = Some (JNumber fy) ->
  let font :=
    string_of_Z (ThemedLayout.fontSize_px (get_member "fontSize" members))
    ++ "px Arial, sans-serif" in
  exists c',
    Untyped.draw_element StringToNumber NumberToString (JObject members) c =
      Untyped.Normal c'
    /\ drawn c' =
       (drawn c ++
        match exact_of_float (position_binary64 fx (number_of_Z (width c))),
              exact_of_float (position_binary64 fy (number_of_Z (height c)))
        with
        | Some px, Some py =>
            [FillText (fillStyle c) font (textAlign c) t px py]
        | _, _ => []
        end)%list
    /\ (0 <= width c < 2 ^ 53 -> 0 <= height c < 2 ^ 53 ->
        fx = 0%float -> fy = 0%float ->
        drawn c' =
        (drawn c ++
         [FillText (fillStyle c) font (textAlign c) t
            (num_of_Z 0) (num_of_Z 0)])%list)
    /\ (0 <= width c < 2 ^ 53 -> 0 <= height c < 2 ^ 53 ->
        fx = 100%float -> fy = 100%float ->
        drawn c' =
        (drawn c ++
         [FillText (fillStyle c) font (textAlign c) t
            (num_of_Z (width c)) (num_of_Z (height c))])%list).
Proof.
  intros Ht Hx Hy font0.
  unfold Untyped.draw_element, Untyped.property.
  rewrite Ht, Hx, Hy. cbn [Untyped.conversion_throws
                           Untyped.ToPrimitive_throws orb].
  cbv zeta. eexists. split; [reflexivity|].
  unfold seq_stmt, reading, fillText_number.
  cbn [set_font width height Untyped.ToNumber Untyped.ToString_property
       Untyped.ToString].
  change ((fx / 100) * number_of_Z (width c))%float
    with (position_binary64 fx (number_of_Z (width c))).
  change ((fy / 100) * number_of_Z (height c))%float
    with (position_binary64 fy (number_of_Z (height c))).
  assert (Hgeneral :
    drawn
      (match exact_of_float (position_binary64 fx (number_of_Z (width c))),
             exact_of_float (position_binary64 fy (number_of_Z (height c)))
       with
       | Some qx, Some qy => fillText t qx qy
       | _, _ => skip
       end (set_font font0 c)) =
    (drawn c ++
     match exact_of_float (position_binary64 fx (number_of_Z (width c))),
           exact_of_float (position_binary64 fy (number_of_Z (height c)))
     with
     | Some px, Some py => [FillText (fillStyle c) font0 (textAlign c) t px py]
     | _, _ => []
     end)%list).
  { destruct (exact_of_float (position_binary64 fx _)) as [qx|];
      [destruct (exact_of_float (position_binary64 fy _)) as [qy|]|];
      cbn; rewrite ?app_nil_r; reflexivity. }
  split; [exact Hgeneral|].
  split; intros Hw Hh -> ->; (etransitivity; [exact Hgeneral|]).
  - rewrite !position_binary64_0 by assumption. reflexivity.
  - rewrite !position_binary64_100 by assumption. reflexivity.
Qed.

Lemma position_is_binary64_percentage_witness :
  exists c',
    Untyped.draw_element (fun _ => nan) (fun _ => "")
      (JObject [("text", JString "TOTAL"); ("x", JNumber 100);
                ("y", JNumber 100); ("fontSize", JString "large")])
      (reset_canvas 800 1200) = Untyped.Normal c'
    /\ drawn c' =
       [FillText (Color "#000000") "24px Arial, sans-serif" AlignStart
          "TOTAL" (num_of_Z 800) (num_of_Z 1200)].
Proof.
  destruct (position_is_binary64_percentage (fun _ => nan) (fun _ => "")
              [("text", JString "TOTAL"); ("x", JNumber 100);
               ("y", JNumber 100); ("fontSize", JString "large")]
              "TOTAL" 100 100 (reset_canvas 800 1200)
              eq_refl eq_refl eq_refl)
    as (c' & Hrun & _ & _ & Hcorner).
  exists c'. split; [exact Hrun|].
  apply Hcorner; try reflexivity; simpl; lia.
Defined.

(** C1 (as stated) fails: on a canvas 801 pixels wide, the element at
    [x = 50] is painted at 400.5, which is not [Math.round] of it (401);
    400.5 is also what binary64 arithmetic computes, so the handler run on
    the parsed answer paints the same canvas. *)
Lemma position_not_rounded :
  let e := {| text := "TOTAL"; x := num_of_Z 50; y := num_of_Z 50;
              fontSize := Some (JString "large") |} in
  drawn (ThemedLayout.render (801, 1200) (ArrayOf [e])) =
    (drawn (ThemedLayout.render (801, 1200) (ArrayOf [])) ++
     [FillText (Color "white") "24px Arial, sans-serif" AlignCenter "TOTAL"
        (Q2Qc (801 # 2)) (num_of_Z 600)])%list
  /\ Q2Qc (801 # 2) <> num_of_Z (Math_round ((x e / 100) * num_of_Z 801)%Qc)
  /\ exact_of_float (position_binary64 50 (number_of_Z 801)) =
     Some (Q2Qc (801 # 2))
  /\ (forall (StringToNumber : string -> float)
             (NumberToString : float -> string),
        Untyped.render StringToNumber NumberToString (801, 1200)
          (JObject
             [("textElements",
               JArray [JObject [("text", JString "TOTAL");
                                ("x", JNumber 50); ("y", JNumber 50);
                                ("fontSize", JString "large")]])]) =
        Untyped.Normal (ThemedLayout.render (801, 1200) (ArrayOf [e]))).
Proof.
  intros e. split; [|split; [|split]].
  - rewrite !render_drawn. simpl map. rewrite app_nil_r.
    unfold e; simpl. same_numbers.
  - intros H. apply (f_equal this) in H. vm_compute in H. discriminate H.
  - vm_compute. same_numbers.
  - intros StringToNumber NumberToString.
    apply (untyped_render_one_exact StringToNumber NumberToString (801, 1200)
             _ "TOTAL" 50 50);
      try reflexivity; vm_compute; same_numbers.
Qed.

(** ** Font sizes *)

(** C2: the size hint is turned into a pixel size by the fixed mapping
    small to 12, medium to 16, large to 24; the three sizes are strictly
    increasing, and the size found is the one the text is painted with. *)
Theorem fontSize_mapping (e : element) (c : canvas) :
  ThemedLayout.fontSize_px (Some (JString "small")) = 12
  /\ ThemedLayout.fontSize_px (Some (JString "medium")) = 16
  /\ ThemedLayout.fontSize_px (Some (JString "large")) = 24
  /\ ThemedLayout.fontSize_px (Some (JString "small")) <
     ThemedLayout.fontSize_px (Some (JString "medium"))
  /\ ThemedLayout.fontSize_px (Some (JString "medium")) <
     ThemedLayout.fontSize_px (Some (JString "large"))
  /\ font (ThemedLayout.draw_element e c) =
     string_of_Z (ThemedLayout.fontSize_px (fontSize e)) ++ "px Arial, sans-serif".
Proof. repeat split. Qed.

(** C10: any value of [fontSize] other than the strings "large" and
    "small", a missing field included, gives the medium size, 16 pixels. *)
Theorem fontSize_default_medium (v : option json) :
  v <> Some (JString "large") ->
  v <> Some (JString "small") ->
  ThemedLayout.fontSize_px v = 16.
Proof.
  intros Hlarge Hsmall. unfold ThemedLayout.fontSize_px, strict_eq_string.
  destruct v as [[| b | n | s | items | members]|]; try reflexivity.
  destruct (String.eqb_spec s "large") as [->|_]; [contradiction Hlarge; reflexivity|].
  destruct (String.eqb_spec s "small") as [->|_]; [contradiction Hsmall; reflexivity|].
  reflexivity.
Qed.

Lemma fontSize_default_medium_witness :
  ThemedLayout.fontSize_px None = 16
  /\ ThemedLayout.fontSize_px (Some (JString "huge")) = 16
  /\ ThemedLayout.fontSize_px (Some (JNumber 24%float)) = 16.
Proof.
  split; [|split].
  - apply (fontSize_default_medium None); discriminate.
  - apply (fontSize_default_medium (Some (JString "huge"))); discriminate.
  - apply (fontSize_default_medium (Some (JNumber 24%float))); discriminate.
Defined.

(** ** Compositing *)

(** C3: with an empty array of elements the compositor paints nothing:
    the canvas keeps its size and its painting, so it encodes to the same
    image as the background it was given.  The run is a success like any
    other: it delivers the background and shows no failure. *)
Theorem composite_empty_is_background
    (c : canvas) (a : Ascii.ascii) (image : string) (size : Z * Z) (date : string) :
  let after := ThemedLayout.composite (ArrayOf []) c in
  let w := {| invoked := InvokeData (ArrayOf []); context2d := true;
              loaded := Some size; currentDate := date |} in
  (width after = width c /\ height after = height c /\ drawn after = drawn c)
  /\ toDataURL "image/png" after = toDataURL "image/png" c
  /\ ThemedLayout.processImage (Some (String a image)) w =
    [SetIsProcessing true; SetIsProcessing false;
     SetProcessedImage
       (toDataURL "image/png"
          (ThemedLayout.background_stage size createElement_canvas));
     Toast success_toast]
  /\ failure_notices (ThemedLayout.processImage (Some (String a image)) w) = [].
Proof.
  intros after w. split; [repeat split|].
  split; [reflexivity|]. split; reflexivity.
Qed.

(** C7 (as amended): the handler never rejects an element for its
    coordinates and never aborts for them.  For every array of elements
    of the asked shape (a string [text], numbers [x] and [y] of any value)
    it delivers the image, of the size of the upload, with the background
    and then, in the order of the array, the text of each element whose
    position binary64 arithmetic computes as a finite number, inside the
    canvas or not; an element whose position is not finite is passed to
    the canvas and not painted. *)
Theorem every_element_reaches_the_canvas
    (StringToNumber : string -> float) (NumberToString : float -> string)
    (size : Z * Z) (elements : list json) :
  forallb Untyped.fragment_shape elements = true ->
  exists url : dataURL,
    Untyped.img_onload StringToNumber NumberToString size
      (JObject [("textElements", JArray elements)]) =
      [SetProcessedImage url; Toast success_toast]
    /\ pixelWidth url = fst size /\ pixelHeight url = snd size
    /\ painted url =
       (drawn (ThemedLayout.background_stage size createElement_canvas) ++
        flat_map (Untyped.text_painting StringToNumber NumberToString
                    (fst size) (snd size)) elements)%list.
Proof.
  intros Hshape.
  destruct (untyped_render_elements StringToNumber NumberToString size
              elements (fragment_shape_converts elements Hshape))
    as (c' & Hrun & Hw & Hh & Hdrawn).
  exists (toDataURL "image/png" c').
  unfold Untyped.img_onload. rewrite Hrun.
  split; [reflexivity|]. split; [exact Hw|]. split; [exact Hh|].
  exact Hdrawn.
Qed.

(** For instance an element at [x = 250], [y = -10] on an 800 by 1200
    canvas is painted at (2000, -120). *)
Lemma every_element_reaches_the_canvas_witness :
  exists url : dataURL,
    Untyped.img_onload (fun _ => nan) (fun _ => "") (800, 1200)
      (JObject [("textElements",
                 JArray [JObject [("text", JString "TOTAL");
                                  ("x", JNumber 250);
                                  ("y", JNumber (-10))]])]) =
      [SetProcessedImage url; Toast success_toast]
    /\ pixelWidth url = 800 /\ pixelHeight url = 1200
    /\ painted url =
       (drawn (ThemedLayout.background_stage (800, 1200)
                 createElement_canvas) ++
        [FillText (Color "white") "16px Arial, sans-serif" AlignCenter
           "TOTAL" (num_of_Z 2000) (num_of_Z (-120))])%list.
Proof.
  destruct (every_element_reaches_the_canvas (fun _ => nan) (fun _ => "")
              (800, 1200)
              [JObject [("text", JString "TOTAL"); ("x", JNumber 250);
                        ("y", JNumber (-10))]]
              eq_refl)
    as (url & Hrun & Hw & Hh & Hpainted).
  exists url. split; [exact Hrun|]. split; [exact Hw|]. split; [exact Hh|].
  rewrite Hpainted. f_equal. vm_compute. same_numbers.
Defined.

(** C7 (as stated) fails: the answer may hold any JSON number, and at
    [x = 1e308] on a canvas 800 wide the position the handler computes is
    [Infinity]; the canvas ignores that [fillText], so the image delivered
    is the background alone and the fragment is not drawn. *)
Lemma overflowing_element_is_not_drawn :
  let element :=
    JObject [("text", JString "TOTAL"); ("x", JNumber 1e308);
             ("y", JNumber 50); ("fontSize", JString "large")] in
  position_binary64 1e308 (number_of_Z 800) = infinity
  /\ (forall (StringToNumber : string -> float)
             (NumberToString : float -> string),
        Untyped.img_onload StringToNumber NumberToString (800, 1200)
          (JObject [("textElements", JArray [element])]) =
        [SetProcessedImage
           (toDataURL "image/png"
              (ThemedLayout.background_stage (800, 1200)
                 createElement_canvas));
         Toast success_toast]).
Proof.
  intros element. split; [reflexivity|].
  intros StringToNumber NumberToString. vm_compute. reflexivity.
Qed.

(** An element far outside the canvas, for instance: at [x = 250],
    [y = -10] on an 800 by 1200 canvas the text goes to (2000, -120). *)
Example element_outside_canvas :
  drawn (ThemedLayout.render (800, 1200)
           (ArrayOf [ {| text := "TOTAL"; x := num_of_Z 250; y := num_of_Z (-10);
                         fontSize := None |} ])) =
  (drawn (ThemedLayout.render (800, 1200) (ArrayOf [])) ++
   [FillText (Color "white") "16px Arial, sans-serif" AlignCenter "TOTAL"
      (num_of_Z 2000) (num_of_Z (-120))])%list.
Proof.
  rewrite !render_drawn. simpl map. rewrite app_nil_r. simpl. same_numbers.
Qed.

(** ** The background *)

(** C4 (as amended): the gradient and the line pattern are a function of
    the size of the canvas alone.  In the element layout the stage paints,
    from any canvas, the gradient over the size of the upload and the lines
    of that size, and a run does not read the clock: two worlds that differ
    in the date only give the same run.  In the fixed template the stage
    paints, from any canvas, the gradient and the sixty lines of the 800 by
    1200 canvas, and these are the first 61 paintings of the image at any
    date; the date is painted after them. *)
Theorem background_is_function_of_size
    (size : Z * Z) (c : canvas) (img : option string) (w : world)
    (date : string) :
  drawn (ThemedLayout.background_stage size c) =
    (FillRect
       (Gradient {| gx0 := 0%Qc; gy0 := 0%Qc;
                    gx1 := num_of_Z (fst size); gy1 := num_of_Z (snd size);
                    colorStops := ThemedLayout.theme_stops |})
       0%Qc 0%Qc (num_of_Z (fst size)) (num_of_Z (snd size)) ::
     map (fun k => FillRect (Color "rgba(0, 0, 0, 0.05)") 0%Qc
                     (num_of_Z (20 * Z.of_nat k)) (num_of_Z (fst size)) 1%Qc)
         (seq 0 (rows_from 0 (snd size))))%list
  /\ drawn (KasikornTemplate.background_stage c) =
    (FillRect
       (Gradient {| gx0 := 0%Qc; gy0 := 0%Qc;
                    gx1 := num_of_Z 800; gy1 := num_of_Z 1200;
                    colorStops := KasikornTemplate.theme_stops |})
       0%Qc 0%Qc (num_of_Z 800) (num_of_Z 1200) ::
     map (fun k => FillRect (Color "rgba(0, 0, 0, 0.05)") 0%Qc
                     (num_of_Z (20 * Z.of_nat k)) (num_of_Z 800) 1%Qc)
         (seq 0 60))%list
  /\ ThemedLayout.processImage img w =
     ThemedLayout.processImage img
       {| invoked := invoked w; context2d := context2d w;
          loaded := loaded w; currentDate := date |}
  /\ firstn 61 (drawn (KasikornTemplate.render date)) =
     drawn (KasikornTemplate.background_stage c).
Proof.
  split; [exact (renderBackground_ops ThemedLayout.theme_stops
                   (fst size) (snd size))|].
  split; [exact (renderBackground_ops KasikornTemplate.theme_stops 800 1200)|].
  split.
  - unfold ThemedLayout.processImage, processImage_with. simpl.
    destruct img as [[|a s]|]; reflexivity.
  - vm_compute. reflexivity.
Qed.

(** C4 (as stated) fails for the fixed template, which stamps
    [new Date().toLocaleDateString(...)] on the image: two runs on the same
    upload, the same answer and the same image size deliver different
    images when the clock differs. *)
Lemma template_stamps_current_date :
  let run := fun date =>
    KasikornTemplate.processImage (Some "data:image/png;base64,AAAA")
      {| invoked := InvokeData (ArrayOf []); context2d := true;
         loaded := Some (800, 1200); currentDate := date |} in
  (exists url,
     delivered (run "1 January 2025") = [url]
     /\ nth_error (painted url) 64 =
        Some (FillText (Color "white") "18px Arial" AlignCenter
                "1 January 2025" (num_of_Z 400) (num_of_Z 200)))
  /\ (exists url,
     delivered (run "2 January 2025") = [url]
     /\ nth_error (painted url) 64 =
        Some (FillText (Color "white") "18px Arial" AlignCenter
                "2 January 2025" (num_of_Z 400) (num_of_Z 200)))
  /\ delivered (run "1 January 2025") <> delivered (run "2 January 2025").
Proof.
  intros run. split; [|split].
  - eexists. split; [reflexivity|]. vm_compute. same_numbers.
  - eexists. split; [reflexivity|]. vm_compute. same_numbers.
  - intros H.
    apply (f_equal (map (fun url =>
             map (fun op => match op with
                            | FillText _ _ _ t _ _ => t
                            | _ => ""
                            end) (painted url)))) in H.
    vm_compute in H. discriminate H.
Qed.

(** ** The scenario of the 800 by 1200 slip *)

(** C9: for an uploaded image of 800 by 1200 pixels and the single element
    "TOTAL" at (50, 50) with the large size, the run delivers an 800 by 1200
    PNG: the diagonal gradient from #7c3aed to #c026d3 over the whole canvas,
    the sixty pattern lines, and the text "TOTAL" centred on (400, 600) in
    24 pixel type. *)
Theorem total_scenario (a : Ascii.ascii) (image : string) (date : string) :
  let total := {| text := "TOTAL"; x := num_of_Z 50; y := num_of_Z 50;
                  fontSize := Some (JString "large") |} in
  let w := {| invoked := InvokeData (ArrayOf [total]); context2d := true;
              loaded := Some (800, 1200); currentDate := date |} in
  let url := toDataURL "image/png" (ThemedLayout.render (800, 1200) (ArrayOf [total])) in
  ThemedLayout.processImage (Some (String a image)) w =
    [SetIsProcessing true; SetIsProcessing false;
     SetProcessedImage url; Toast success_toast]
  /\ mime url = "image/png"
  /\ pixelWidth url = 800 /\ pixelHeight url = 1200
  /\ painted url =
     ([FillRect
         (Gradient {| gx0 := num_of_Z 0; gy0 := num_of_Z 0;
                      gx1 := num_of_Z 800; gy1 := num_of_Z 1200;
                      colorStops :=
                        [ {| offset := num_of_Z 0; color := "#7c3aed" |};
                          {| offset := num_of_Z 1; color := "#c026d3" |} ] |})
         (num_of_Z 0) (num_of_Z 0) (num_of_Z 800) (num_of_Z 1200)] ++
      map (fun k => FillRect (Color "rgba(0, 0, 0, 0.05)")
                      (num_of_Z 0) (num_of_Z (20 * Z.of_nat k))
                      (num_of_Z 800) (num_of_Z 1))
          (seq 0 60) ++
      [FillText (Color "white") "24px Arial, sans-serif" AlignCenter "TOTAL"
         (num_of_Z 400) (num_of_Z 600)])%list.
Proof.
  intros total w url.
  split; [reflexivity|]. split; [reflexivity|].
  split; [vm_compute; reflexivity|]. split; [vm_compute; reflexivity|].
  vm_compute. same_numbers.
Qed.

(** ** Failures of a run *)

(** A failure raised inside the [try] block, by the edge function or by a
    canvas without 2D context, is shown with its message and nothing is
    delivered. *)
Lemma caught_failure_is_reported
    (a : Ascii.ascii) (image : string) (w : world) (error : jsError) :
  (invoked w = InvokeError error \/
   (exists data, invoked w = InvokeData data) /\ context2d w = false
   /\ error = {| message := "Canvas not supported" |}) ->
  ThemedLayout.processImage (Some (String a image)) w =
    [SetIsProcessing true;
     ConsoleError "Error processing image:" (message error);
     Toast (failure_toast error);
     SetIsProcessing false].
Proof.
  unfold ThemedLayout.processImage, processImage_with.
  intros [H | ((data & H) & Hctx & ->)]; simpl; rewrite H; [reflexivity|].
  rewrite Hctx. reflexivity.
Qed.

(** Whatever happens, a run delivers nothing or one image, and that image
    is the encoding of the canvas after the last element was painted. *)
Lemma delivered_image_is_complete (img : option string) (w : world) :
  delivered (ThemedLayout.processImage img w) = [] \/
  exists size data,
    loaded w = Some size /\ invoked w = InvokeData data /\
    delivered (ThemedLayout.processImage img w) =
      [toDataURL "image/png" (ThemedLayout.render size data)].
Proof.
  unfold ThemedLayout.processImage, processImage_with.
  destruct img as [[|a s]|]; try (left; reflexivity).
  destruct (invoked w) as [error | data] eqn:Hinv; [left; reflexivity|].
  destruct (context2d w); [|left; reflexivity].
  destruct (loaded w) as [size|] eqn:Hload; [|left; reflexivity].
  right. exists size, data. repeat split.
Qed.

(** C6, where the code departs from it: an image that never loads.  The
    edge function has answered and the canvas has a context, but the load
    event does not fire; nothing was installed for that case, so the run
    ends with neither an image nor a failure notice. *)
Theorem unloadable_image_reports_nothing :
  let total := {| text := "TOTAL"; x := num_of_Z 50; y := num_of_Z 50;
                  fontSize := Some (JString "large") |} in
  let w := {| invoked := InvokeData (ArrayOf [total]); context2d := true;
              loaded := None; currentDate := "1 January 2025" |} in
  let trace := ThemedLayout.processImage (Some "data:image/heic;base64,AAAA") w in
  trace = [SetIsProcessing true; SetIsProcessing false]
  /\ delivered trace = []
  /\ failure_notices trace = [].
Proof. repeat split. Qed.

(** ** The fallback of the edge function *)

Lemma percent_50 (w : Z) :
  ((num_of_Z 50 / num_of_Z 100) * num_of_Z w)%Qc = (num_of_Z w / num_of_Z 2)%Qc.
Proof.
  assert (H : (num_of_Z 50 / num_of_Z 100)%Qc = (/ num_of_Z 2)%Qc)
    by (apply Qc_is_canon; reflexivity).
  rewrite H. unfold Qcdiv. ring.
Qed.

(** C8 (as amended): when [JSON.parse] throws on the text of the
    recognizer, the edge function does not fail: it answers 200 with an
    array of one element made for the occasion, which carries the whole
    text and stands at the middle of the canvas in the medium size.  The
    page reads that answer as a list of one element and paints it like any
    other.  Nothing is said of a text that parses: its value is handed on
    as it is. *)
Theorem parse_failure_gives_fallback
    (JSON_parse : string -> option json)
    (match_fenced : string -> option (string * string))
    (match_bracketed : string -> option string)
    (m image : string) (k : Ascii.ascii) (key : string)
    (response : ProcessSlip.gatewayResponse)
    (a : Ascii.ascii) (rest : string) (size : Z * Z) :
  let extractedText := String a rest in
  let fragment := {| text := extractedText; x := num_of_Z 50; y := num_of_Z 50;
                     fontSize := Some (JString "medium") |} in
  let answer := JObject [("textElements", ProcessSlip.fallback_textElements extractedText)] in
  String.eqb m "OPTIONS" = false ->
  ProcessSlip.ok response = true ->
  ProcessSlip.payload response = ProcessSlip.BodyJson (Some (JString extractedText)) ->
  JSON_parse (ProcessSlip.jsonStr match_fenced match_bracketed extractedText) = None ->
  ProcessSlip.serve JSON_parse match_fenced match_bracketed
      {| ProcessSlip.method := m; ProcessSlip.body := inr image |}
      (Some (String k key)) (ProcessSlip.FetchResolved response) =
    {| ProcessSlip.status := 200; ProcessSlip.responseBody := Some answer |}
  /\ read_textElements answer = Some (ArrayOf [fragment])
  /\ drawn (ThemedLayout.render size (ArrayOf [fragment])) =
     (drawn (ThemedLayout.render size (ArrayOf [])) ++
      [FillText (Color "white") "16px Arial, sans-serif" AlignCenter extractedText
         (num_of_Z (fst size) / num_of_Z 2)%Qc
         (num_of_Z (snd size) / num_of_Z 2)%Qc])%list.
Proof.
  intros extractedText fragment answer Hmethod Hok Hpayload Hparse.
  split; [|split].
  - unfold ProcessSlip.serve, ProcessSlip.parse_textElements.
    cbn [ProcessSlip.method ProcessSlip.body].
    rewrite Hmethod, Hok, Hpayload. cbn [negb].
    change (ProcessSlip.truthy_json (JString extractedText)) with true.
    cbv iota. fold extractedText. rewrite Hparse. reflexivity.
  - unfold answer, ProcessSlip.fallback_textElements, read_textElements.
    cbn [get_member String.eqb Ascii.eqb Bool.eqb read_elements read_element].
    assert (H50 : exact_of_float 50 = Some (num_of_Z 50))
      by (vm_compute; same_numbers).
    rewrite H50. reflexivity.
  - rewrite !render_drawn. simpl map. rewrite app_nil_r.
    simpl. rewrite !percent_50. reflexivity.
Qed.

Lemma parse_failure_gives_fallback_witness :
  let only_empty_array := fun s : string =>
        if String.eqb s "[]" then Some (JArray []) else None in
  let no_fence := fun _ : string => @None (string * string) in
  let no_bracket := fun _ : string => @None string in
  let prose := "I cannot read this image." in
  ProcessSlip.serve only_empty_array no_fence no_bracket
      {| ProcessSlip.method := "POST";
         ProcessSlip.body := inr "data:image/png;base64,AAAA" |}
      (Some "key")
      (ProcessSlip.FetchResolved
         {| ProcessSlip.ok := true; ProcessSlip.gateway_status := 200;
            ProcessSlip.errorText := inr "";
            ProcessSlip.payload := ProcessSlip.BodyJson (Some (JString prose)) |}) =
    {| ProcessSlip.status := 200;
       ProcessSlip.responseBody :=
         Some (JObject [("textElements", ProcessSlip.fallback_textElements prose)]) |}.
Proof.
  intros only_empty_array no_fence no_bracket prose.
  apply (parse_failure_gives_fallback only_empty_array no_fence no_bracket
           "POST" "data:image/png;base64,AAAA" "k"%char "ey"
           {| ProcessSlip.ok := true; ProcessSlip.gateway_status := 200;
              ProcessSlip.errorText := inr "";
              ProcessSlip.payload := ProcessSlip.BodyJson (Some (JString prose)) |}
           "I"%char " cannot read this image." (800, 1200));
    reflexivity.
Defined.

(** C8 (as stated) fails in its last part: a text that parses is handed
    on unchecked, so the page does not always receive a list of elements.
    For the content [[null]] the edge function answers 200 with
    [textElements: [null]]; the handler of the page throws on the [null]
    element, and the run ends without an image and without a toast. *)
Lemma null_element_is_handed_on :
  let JSON_parse := fun s : string =>
        if String.eqb s "[null]" then Some (JArray [JNull]) else None in
  let match_fenced := fun _ : string => @None (string * string) in
  let match_bracketed := fun s : string =>
        if String.eqb s "[null]" then Some "[null]" else None in
  let answer := JObject [("textElements", JArray [JNull])] in
  ProcessSlip.serve JSON_parse match_fenced match_bracketed
      {| ProcessSlip.method := "POST";
         ProcessSlip.body := inr "data:image/png;base64,AAAA" |}
      (Some "key")
      (ProcessSlip.FetchResolved
         {| ProcessSlip.ok := true; ProcessSlip.gateway_status := 200;
            ProcessSlip.errorText := inr "";
            ProcessSlip.payload :=
              ProcessSlip.BodyJson (Some (JString "[null]")) |}) =
    {| ProcessSlip.status := 200; ProcessSlip.responseBody := Some answer |}
  /\ read_textElements answer = None
  /\ (forall (StringToNumber : string -> float)
             (NumberToString : float -> string),
        Untyped.render StringToNumber NumberToString (800, 1200) answer =
          Untyped.TypeError
        /\ Untyped.processImage StringToNumber NumberToString
             (Some "data:image/png;base64,AAAA")
             {| Untyped.invoked := inr answer; Untyped.context2d := true;
                Untyped.loaded := Some (800, 1200) |} =
           [SetIsProcessing true; SetIsProcessing false]).
Proof.
  intros JSON_parse match_fenced match_bracketed answer.
  split; [reflexivity|]. split; [reflexivity|].
  intros StringToNumber NumberToString. split; reflexivity.
Qed.

(** * Further properties *)

(** ** The line pattern *)

(** The loop paints one line, one pixel high and as wide as the canvas,
    at the rows [i], [i + 20], [i + 40], ... below the height of the
    canvas, in that order, and nothing else. *)
Theorem pattern_loop_lines (i : Z) (c : canvas) :
  drawn (pattern_loop i c) =
  (drawn c ++
   map (fun k => FillRect (fillStyle c) 0%Qc (num_of_Z (i + 20 * Z.of_nat k))
                   (num_of_Z (width c)) 1%Qc)
       (seq 0 (rows_from i (height c))))%list.
Proof. exact (pattern_loop_drawn i c). Qed.

(** Every line the loop paints from row 0 lies on the canvas: it is one
    pixel high, as wide as the canvas, and its row is a multiple of 20 from
    0 up to, and not including, the height. *)
Theorem pattern_rows_on_canvas (c : canvas) (op : drawop) :
  In op (skipn (length (drawn c)) (drawn (pattern_loop 0 c))) ->
  exists k : Z,
    0 <= 20 * k < height c
    /\ op = FillRect (fillStyle c) 0%Qc (num_of_Z (20 * k))
              (num_of_Z (width c)) 1%Qc.
Proof.
  rewrite pattern_loop_drawn, skipn_app, skipn_all, Nat.sub_diag.
  cbn [skipn app]. intros H.
  apply in_map_iff in H. destruct H as (k & Hop & Hk).
  apply in_seq in Hk. unfold rows_from in Hk.
  exists (Z.of_nat k). split.
  - assert (Hlt : Z.of_nat k < (height c - 0 + 19) / 20) by lia.
    assert (Hdiv : 20 * ((height c - 0 + 19) / 20) <= height c - 0 + 19)
      by (apply Z.mul_div_le; lia).
    lia.
  - rewrite <- Hop. reflexivity.
Qed.

Lemma pattern_rows_on_canvas_witness :
  exists k : Z,
    0 <= 20 * k < 1200
    /\ FillRect (Color "#000000") 0%Qc (num_of_Z 1180) (num_of_Z 800) 1%Qc =
       FillRect (Color "#000000") 0%Qc (num_of_Z (20 * k)) (num_of_Z 800) 1%Qc.
Proof.
  apply (pattern_rows_on_canvas (reset_canvas 800 1200)
           (FillRect (Color "#000000") 0%Qc (num_of_Z 1180) (num_of_Z 800)
              1%Qc)).
  vm_compute. do 59 right. left. reflexivity.
Defined.

(** The whole background, for a canvas of any size and any stops: the
    gradient over the canvas and then the lines, [ceil(height / 20)] of
    them; on a canvas without height the gradient rectangle is all there
    is. *)
Theorem renderBackground_drawn (stops : list colorStop) (w h : Z) :
  drawn (renderBackground stops (reset_canvas w h)) =
  (FillRect
     (Gradient {| gx0 := 0%Qc; gy0 := 0%Qc;
                  gx1 := num_of_Z w; gy1 := num_of_Z h;
                  colorStops := stops |})
     0%Qc 0%Qc (num_of_Z w) (num_of_Z h) ::
   map (fun k => FillRect (Color "rgba(0, 0, 0, 0.05)") 0%Qc
                   (num_of_Z (20 * Z.of_nat k)) (num_of_Z w) 1%Qc)
       (seq 0 (rows_from 0 h)))%list
  /\ length (drawn (renderBackground stops (reset_canvas w h))) =
     S (Z.to_nat ((h + 19) / 20))
  /\ length (drawn (renderBackground stops (reset_canvas w 0))) = 1%nat.
Proof.
  split; [apply renderBackground_ops|].
  split; [apply renderBackground_length|reflexivity].
Qed.

(** ** The compositor on any list of elements *)

Lemma set_fillStyle_same (p : paint) (c : canvas) :
  fillStyle c = p -> set_fillStyle p c = c.
Proof. destruct c; simpl; intros <-; reflexivity. Qed.

Lemma set_textAlign_same (a : textAlignment) (c : canvas) :
  textAlign c = a -> set_textAlign a c = c.
Proof. destruct c; simpl; intros <-; reflexivity. Qed.

(** Compositing a first batch of elements and then a second one on the
    result is compositing the two batches as one list: the canvas ends in
    the same state, painting included. *)
Theorem composite_append (first second : list element) (c : canvas) :
  ThemedLayout.composite (ArrayOf second)
    (ThemedLayout.composite (ArrayOf first) c) =
  ThemedLayout.composite (ArrayOf (first ++ second)) c.
Proof.
  unfold ThemedLayout.composite, seq_stmt.
  set (c0 := set_textAlign AlignCenter (set_fillStyle (Color "white") c)).
  destruct (forEach_draw_element first c0) as [(_ & _ & Hfill & Halign) _].
  rewrite set_fillStyle_same by (rewrite Hfill; reflexivity).
  rewrite set_textAlign_same by (rewrite Halign; reflexivity).
  unfold ThemedLayout.forEach. rewrite fold_left_app. reflexivity.
Qed.

Lemma text_painting_length
    (StringToNumber : string -> float) (NumberToString : float -> string)
    (w h : Z) (elements : list json) :
  (length (flat_map (Untyped.text_painting StringToNumber NumberToString w h)
             elements) <= length elements)%nat.
Proof.
  induction elements as [|element elements IH]; [apply le_n|].
  cbn [flat_map]. rewrite length_app. cbn [length].
  assert (Hone : (length (Untyped.text_painting StringToNumber NumberToString
                            w h element) <= 1)%nat).
  { unfold Untyped.text_painting.
    destruct (exact_of_float _) as [qx|]; [destruct (exact_of_float _) as [qy|]|];
      cbn [length]; lia. }
  lia.
Qed.

(** The image of the element layout, for an uploaded image of any size
    and any array of elements on which the handler does not throw: the
    purple gradient over the canvas, the lines of the pattern, and then, in
    the order of the array, the text of each element at the position
    binary64 arithmetic computes from its percentages, when that position
    is finite; a later text is painted over an earlier one, and no element
    paints more than once. *)
Theorem render_painting
    (StringToNumber : string -> float) (NumberToString : float -> string)
    (w h : Z) (elements : list json) :
  Untyped.handler_throws (JObject [("textElements", JArray elements)]) =
    false ->
  exists canvas : canvas,
    Untyped.render StringToNumber NumberToString (w, h)
      (JObject [("textElements", JArray elements)]) =
      Untyped.Normal canvas
    /\ painted (toDataURL "image/png" canvas) =
       (FillRect
          (Gradient {| gx0 := 0%Qc; gy0 := 0%Qc;
                       gx1 := num_of_Z w; gy1 := num_of_Z h;
                       colorStops := ThemedLayout.theme_stops |})
          0%Qc 0%Qc (num_of_Z w) (num_of_Z h) ::
        map (fun k => FillRect (Color "rgba(0, 0, 0, 0.05)") 0%Qc
                        (num_of_Z (20 * Z.of_nat k)) (num_of_Z w) 1%Qc)
            (seq 0 (rows_from 0 h)) ++
        flat_map (Untyped.text_painting StringToNumber NumberToString w h)
          elements)%list
    /\ (length (painted (toDataURL "image/png" canvas)) <=
        1 + Z.to_nat ((h + 19) / 20) + length elements)%nat.
Proof.
  intros Hthrows.
  change (Untyped.handler_throws (JObject [("textElements", JArray elements)]))
    with (existsb Untyped.element_throws elements) in Hthrows.
  destruct (untyped_render_elements StringToNumber NumberToString (w, h)
              elements Hthrows)
    as (c' & Hrun & _ & _ & Hdrawn).
  assert (Hbg : drawn (ThemedLayout.background_stage (w, h) createElement_canvas) =
                drawn (renderBackground ThemedLayout.theme_stops (reset_canvas w h)))
    by reflexivity.
  exists c'. split; [exact Hrun|].
  cbn [painted toDataURL fst snd] in *. rewrite Hdrawn, Hbg.
  split.
  - rewrite renderBackground_ops. reflexivity.
  - rewrite length_app, renderBackground_length.
    pose proof (text_painting_length StringToNumber NumberToString w h elements).
    lia.
Qed.

(** For instance an answer with the element of the scenario, a stray
    string and an element whose position overflows: only the first is
    painted. *)
Lemma render_painting_witness :
  exists canvas : canvas,
    Untyped.render (fun _ => nan) (fun _ => "") (800, 1200)
      (JObject
         [("textElements",
           JArray [JObject [("text", JString "TOTAL"); ("x", JNumber 50);
                            ("y", JNumber 50);
                            ("fontSize", JString "large")];
                   JString "stray";
                   JObject [("text", JString "FAR"); ("x", JNumber 1e308);
                            ("y", JNumber 50)]])]) =
      Untyped.Normal canvas
    /\ painted (toDataURL "image/png" canvas) =
       (FillRect
          (Gradient {| gx0 := 0%Qc; gy0 := 0%Qc;
                       gx1 := num_of_Z 800; gy1 := num_of_Z 1200;
                       colorStops := ThemedLayout.theme_stops |})
          0%Qc 0%Qc (num_of_Z 800) (num_of_Z 1200) ::
        map (fun k => FillRect (Color "rgba(0, 0, 0, 0.05)") 0%Qc
                        (num_of_Z (20 * Z.of_nat k)) (num_of_Z 800) 1%Qc)
            (seq 0 (rows_from 0 1200)) ++
        [FillText (Color "white") "24px Arial, sans-serif" AlignCenter
           "TOTAL" (num_of_Z 400) (num_of_Z 600)])%list.
Proof.
  destruct (render_painting (fun _ => nan) (fun _ => "") 800 1200
              [JObject [("text", JString "TOTAL"); ("x", JNumber 50);
                        ("y", JNumber 50); ("fontSize", JString "large")];
               JString "stray";
               JObject [("text", JString "FAR"); ("x", JNumber 1e308);
                        ("y", JNumber 50)]]
              eq_refl)
    as (cv & Hrun & Hpainted & _).
  exists cv. split; [exact Hrun|].
  rewrite Hpainted. do 2 f_equal. vm_compute. same_numbers.
Defined.

(** An answer whose [textElements] is not an array (a number, a string,
    an object, [null]) is taken as no element at all: nothing is painted on
    the background, and the run delivers the bare background as a
    success. *)
Theorem non_array_answer_gives_bare_background
    (v : json) (a : ascii) (image : string) (size : Z * Z) (date : string) :
  (forall items, v <> JArray items) ->
  read_textElements (JObject [("textElements", v)]) = Some NotAnArray
  /\ ThemedLayout.composite NotAnArray
       (ThemedLayout.background_stage size createElement_canvas) =
     ThemedLayout.composite (ArrayOf [])
       (ThemedLayout.background_stage size createElement_canvas)
  /\ ThemedLayout.processImage (Some (String a image))
       {| invoked := InvokeData NotAnArray; context2d := true;
          loaded := Some size; currentDate := date |} =
     [SetIsProcessing true; SetIsProcessing false;
      SetProcessedImage
        (toDataURL "image/png"
           (ThemedLayout.background_stage size createElement_canvas));
      Toast success_toast].
Proof.
  intros Hv. split; [|split; reflexivity].
  unfold read_textElements. cbn.
  destruct v; try reflexivity. contradiction (Hv items). reflexivity.
Qed.

Lemma non_array_answer_gives_bare_background_witness :
  read_textElements (JObject [("textElements", JNumber 42%float)]) =
  Some NotAnArray.
Proof.
  apply (non_array_answer_gives_bare_background
           (JNumber 42%float) "d"%char "ata:image/png;base64,AAAA"
           (800, 1200) "").
  intros items. discriminate.
Defined.

(** The pixel size of a text is always one of 12, 16 and 24. *)
Theorem fontSize_px_range (v : option json) :
  ThemedLayout.fontSize_px v = 12 \/ ThemedLayout.fontSize_px v = 16 \/
  ThemedLayout.fontSize_px v = 24.
Proof.
  unfold ThemedLayout.fontSize_px.
  destruct (strict_eq_string v "large"); [right; right; reflexivity|].
  destruct (strict_eq_string v "small"); [left; reflexivity|right; left; reflexivity].
Qed.





(** ** A run and the state of the page *)

(** Without a selected image a click on "Process Image" does nothing at
    all; with one, the run always ends with [isProcessing] back to false,
    whatever the edge function, the canvas and the image do, in both
    revisions. *)
Theorem run_ends_idle (a : ascii) (image : string) (w : world) (st : pageState) :
  ThemedLayout.processImage None w = []
  /\ ThemedLayout.processImage (Some "") w = []
  /\ KasikornTemplate.processImage None w = []
  /\ KasikornTemplate.processImage (Some "") w = []
  /\ isProcessing
       (after_run st (ThemedLayout.processImage (Some (String a image)) w)) = false
  /\ isProcessing
       (after_run st (KasikornTemplate.processImage (Some (String a image)) w)) = false.
Proof.
  repeat split;
    unfold ThemedLayout.processImage, KasikornTemplate.processImage,
           processImage_with;
    destruct (invoked w); try reflexivity;
    destruct (context2d w); try reflexivity;
    destruct (loaded w); reflexivity.
Qed.

(** A run shows a success notice exactly when it delivers an image, and
    it never does more than one of the two: deliver an image, show a
    failure.  This holds in both revisions. *)
Theorem one_outcome_per_run (img : option string) (w : world) :
  let themed := ThemedLayout.processImage img w in
  let template := KasikornTemplate.processImage img w in
  length (success_notices themed) = length (delivered themed)
  /\ (length (delivered themed) + length (failure_notices themed) <= 1)%nat
  /\ length (success_notices template) = length (delivered template)
  /\ (length (delivered template) + length (failure_notices template) <= 1)%nat.
Proof.
  unfold ThemedLayout.processImage, KasikornTemplate.processImage,
         processImage_with.
  destruct img as [[|a s]|]; simpl; try (repeat split; lia).
  destruct (invoked w); simpl; try (repeat split; lia).
  destruct (context2d w); simpl; try (repeat split; lia).
  destruct (loaded w); simpl; repeat split; lia.
Qed.

(** A run that fails, or whose image never loads, leaves the selected
    image and the processed image of the page as they were: a result
    obtained earlier stays on the page. *)
Theorem failed_run_keeps_result (st : pageState) (w : world) :
  (exists error, invoked w = InvokeError error) \/ context2d w = false \/
  loaded w = None ->
  selectedImage (click_process st w) = selectedImage st
  /\ processedImage (click_process st w) = processedImage st.
Proof.
  unfold click_process, ThemedLayout.processImage, processImage_with.
  intros H.
  destruct (selectedImage st) as [[|a s]|] eqn:Hsel; try (split; [assumption|reflexivity]).
  destruct (invoked w) as [error|data] eqn:Hinv; [split; [assumption|reflexivity]|].
  destruct (context2d w) eqn:Hctx; [|split; [assumption|reflexivity]].
  destruct (loaded w) eqn:Hload; [|split; [assumption|reflexivity]].
  destruct H as [[error H] | [H | H]]; discriminate H.
Qed.

Lemma failed_run_keeps_result_witness :
  let st := {| selectedImage := Some "data:image/png;base64,AAAA";
               processedImage := Some (toDataURL "image/png" (reset_canvas 1 1));
               isProcessing := false |} in
  let w := {| invoked := InvokeError {| message := "Rate limit exceeded" |};
              context2d := true; loaded := Some (800, 1200); currentDate := "" |} in
  selectedImage (click_process st w) = selectedImage st
  /\ processedImage (click_process st w) = processedImage st.
Proof.
  intros st w. apply (failed_run_keeps_result st w).
  left. exists {| message := "Rate limit exceeded" |}. reflexivity.
Defined.

Lemma click_process_success
    (st : pageState) (w : world) (a : ascii) (image : string)
    (data : textElementsField) (size : Z * Z) :
  selectedImage st = Some (String a image) ->
  invoked w = InvokeData data -> context2d w = true -> loaded w = Some size ->
  click_process st w =
    {| selectedImage := Some (String a image);
       processedImage := Some (toDataURL "image/png" (ThemedLayout.render size data));
       isProcessing := false |}.
Proof.
  intros Hsel Hinv Hctx Hload.
  unfold click_process, ThemedLayout.processImage, processImage_with.
  rewrite Hsel, Hinv, Hctx, Hload. cbn. rewrite Hsel. reflexivity.
Qed.

(** A run in which the edge function answers, the canvas gives a context
    and the image loads ends in one of two ways, by the answer alone.  On
    [null], or on an array of elements with a [null] in it, the handler
    throws: the page keeps the result it had and is idle.  On every other
    answer the handler ends, and the page holds the encoding of the canvas
    it painted; the selected image is kept either way. *)
Theorem successful_run_sets_result
    (StringToNumber : string -> float) (NumberToString : float -> string)
    (st : pageState) (w : Untyped.world) (a : ascii) (image : string)
    (data : json) (size : Z * Z) :
  selectedImage st = Some (String a image) ->
  Untyped.invoked w = inr data -> Untyped.context2d w = true ->
  Untyped.loaded w = Some size ->
  let st' :=
    after_run st
      (Untyped.processImage StringToNumber NumberToString
         (selectedImage st) w) in
  if Untyped.handler_throws data
  then Untyped.render StringToNumber NumberToString size data =
         Untyped.TypeError
       /\ st' = {| selectedImage := Some (String a image);
                   processedImage := processedImage st;
                   isProcessing := false |}
  else exists canvas : canvas,
       Untyped.render StringToNumber NumberToString size data =
         Untyped.Normal canvas
       /\ st' = {| selectedImage := Some (String a image);
                   processedImage := Some (toDataURL "image/png" canvas);
                   isProcessing := false |}.
Proof.
  intros Hsel Hinv Hctx Hload st'.
  pose proof (untyped_render_throws StringToNumber NumberToString size data)
    as Hrender.
  unfold st', Untyped.processImage, Untyped.img_onload.
  rewrite Hsel, Hinv, Hctx, Hload.
  destruct (Untyped.handler_throws data).
  - split; [exact Hrender|]. rewrite Hrender. cbn. rewrite Hsel. reflexivity.
  - destruct Hrender as (c' & Hrender). exists c'.
    split; [exact Hrender|]. rewrite Hrender. cbn. rewrite Hsel. reflexivity.
Qed.

Lemma successful_run_sets_result_witness :
  let st := {| selectedImage := Some "data:image/png;base64,AAAA";
               processedImage := None; isProcessing := false |} in
  let data :=
    JObject [("textElements",
              JArray [JObject [("text", JString "TOTAL"); ("x", JNumber 50);
                               ("y", JNumber 50);
                               ("fontSize", JString "large")]])] in
  let w := {| Untyped.invoked := inr data; Untyped.context2d := true;
              Untyped.loaded := Some (800, 1200) |} in
  exists canvas : canvas,
    Untyped.render (fun _ => nan) (fun _ => "") (800, 1200) data =
      Untyped.Normal canvas
    /\ after_run st
         (Untyped.processImage (fun _ => nan) (fun _ => "")
            (selectedImage st) w) =
       {| selectedImage := Some "data:image/png;base64,AAAA";
          processedImage := Some (toDataURL "image/png" canvas);
          isProcessing := false |}.
Proof.
  intros st data w.
  exact (successful_run_sets_result (fun _ => nan) (fun _ => "") st w
           "d"%char "ata:image/png;base64,AAAA" data (800, 1200)
           eq_refl eq_refl eq_refl eq_refl).
Defined.

(** The failure notice always has something to say: the message of the
    error when it has one, the standard sentence otherwise. *)
Theorem failure_toast_never_empty (error : jsError) :
  description (failure_toast error) <> ""
  /\ variant (failure_toast error) = VariantDestructive
  /\ description (failure_toast {| message := "" |}) =
     "Failed to process image. Please try again.".
Proof.
  unfold failure_toast. cbn [description variant message].
  destruct (String.eqb_spec (message error) "") as [Heq|Hne].
  - repeat split; discriminate.
  - repeat split; assumption.
Qed.

(** ** Choosing, dropping and saving a file *)

(** A file whose type does not start with [image/] is refused: the only
    effect is the notice "Invalid file type", and the page keeps its
    selected image and its result. *)
Theorem non_image_file_refused (f : file) (st : pageState) :
  String.prefix "image/" (file_type f) = false ->
  handleFileSelect (Some f) = [Notify invalid_file_toast]
  /\ after_handler st (handleFileSelect (Some f)) = st
  /\ after_handler st (handleDrop (Some f)) = st.
Proof.
  intros H. unfold handleFileSelect, handleDrop. rewrite H. cbn.
  repeat split.
Qed.

Lemma non_image_file_refused_witness :
  let f := {| file_type := "application/pdf";
              read_result := Some "data:application/pdf;base64,AAAA" |} in
  handleFileSelect (Some f) = [Notify invalid_file_toast]
  /\ after_handler initial_page (handleFileSelect (Some f)) = initial_page
  /\ after_handler initial_page (handleDrop (Some f)) = initial_page.
Proof.
  intros f. apply (non_image_file_refused f initial_page). reflexivity.
Defined.

(** An image file, once read, becomes the selected image and clears the
    processed image, so that a result never stays beside an image it was
    not made from; there is then nothing to save and the page shows the
    placeholder and no "Download" button. *)
Theorem image_file_selected (f : file) (a : ascii) (url : string) (st : pageState) :
  String.prefix "image/" (file_type f) = true ->
  read_result f = Some (String a url) ->
  let st' := after_handler st (handleFileSelect (Some f)) in
  st' = {| selectedImage := Some (String a url); processedImage := None;
           isProcessing := isProcessing st |}
  /\ downloadImage st' = []
  /\ placeholder (render_page st') = true
  /\ download_button (render_page st') = false
  /\ original_panel (render_page st') = Some (String a url).
Proof.
  intros Htype Hread. unfold handleFileSelect. rewrite Htype, Hread. cbn.
  repeat split.
Qed.

Lemma image_file_selected_witness :
  let f := {| file_type := "image/png";
              read_result := Some "data:image/png;base64,AAAA" |} in
  after_handler initial_page (handleFileSelect (Some f)) =
    {| selectedImage := Some "data:image/png;base64,AAAA";
       processedImage := None; isProcessing := false |}.
Proof.
  intros f.
  apply (image_file_selected f "d"%char "ata:image/png;base64,AAAA" initial_page);
    reflexivity.
Defined.

(** Dropping a file does what choosing it does, after cancelling the
    default action of the browser: same notices, same state. *)
Theorem drop_is_select (first : option file) (st : pageState) :
  handleDrop first = PreventDefault :: handleFileSelect first
  /\ after_handler st (handleDrop first) = after_handler st (handleFileSelect first).
Proof.
  unfold handleDrop, handleFileSelect.
  destruct first as [f|]; [|split; reflexivity].
  destruct (String.prefix "image/" (file_type f)); cbn [negb];
    [destruct (read_result f)|]; split; reflexivity.
Qed.

(** No file at all, or a file the reader never finishes reading, leaves
    the page as it was. *)
Theorem no_file_no_change (type : string) (st : pageState) :
  handleFileSelect None = []
  /\ handleDrop None = [PreventDefault]
  /\ after_handler st
       (handleFileSelect (Some {| file_type := type; read_result := None |})) = st
  /\ after_handler st
       (handleDrop (Some {| file_type := type; read_result := None |})) = st.
Proof.
  split; [reflexivity|]. split; [reflexivity|].
  unfold handleFileSelect, handleDrop. cbn [file_type read_result].
  destruct (String.prefix "image/" type); split; reflexivity.
Qed.

(** After a run that went through, "Download" is offered and saves, under
    the name processed-slip.png, exactly the image the run delivered. *)
Theorem download_saves_delivered_image
    (st : pageState) (w : world) (a : ascii) (image : string)
    (data : textElementsField) (size : Z * Z) :
  selectedImage st = Some (String a image) ->
  invoked w = InvokeData data -> context2d w = true -> loaded w = Some size ->
  downloads (downloadImage (click_process st w)) =
    [("processed-slip.png", toDataURL "image/png" (ThemedLayout.render size data))]
  /\ delivered (ThemedLayout.processImage (selectedImage st) w) =
    [toDataURL "image/png" (ThemedLayout.render size data)]
  /\ download_button (render_page (click_process st w)) = true
  /\ processed_panel (render_page (click_process st w)) =
    Some (toDataURL "image/png" (ThemedLayout.render size data)).
Proof.
  intros Hsel Hinv Hctx Hload.
  rewrite (click_process_success st w a image data size Hsel Hinv Hctx Hload).
  unfold ThemedLayout.processImage, processImage_with.
  rewrite Hsel, Hinv, Hctx, Hload. repeat split.
Qed.

Lemma download_saves_delivered_image_witness :
  let st := {| selectedImage := Some "data:image/png;base64,AAAA";
               processedImage := None; isProcessing := false |} in
  let w := {| invoked := InvokeData (ArrayOf []); context2d := true;
              loaded := Some (800, 1200); currentDate := "" |} in
  downloads (downloadImage (click_process st w)) =
    [("processed-slip.png",
      toDataURL "image/png" (ThemedLayout.render (800, 1200) (ArrayOf [])))].
Proof.
  intros st w.
  apply (download_saves_delivered_image st w "d"%char "ata:image/png;base64,AAAA"
           (ArrayOf []) (800, 1200)); reflexivity.
Defined.

(** "Upload New" brings the page back to the upload card from any state:
    no image, no result, no button, and nothing to save. *)
Theorem upload_new_resets (st : pageState) :
  let st' := after_handler st uploadNew in
  selectedImage st' = None /\ processedImage st' = None
  /\ isProcessing st' = isProcessing st
  /\ downloadImage st' = []
  /\ render_page st' =
     {| upload_card := true; original_panel := None; processed_panel := None;
        placeholder := false; upload_new_button := false;
        process_button := None; download_button := false |}.
Proof. repeat split. Qed.

(** The page never offers "Download" without a processed image to save,
    and whenever it offers it, [downloadImage] saves that image. *)
Theorem download_offered_only_with_result (st : pageState) :
  download_button (render_page st) = true ->
  exists url, processedImage st = Some url
              /\ downloads (downloadImage st) = [("processed-slip.png", url)].
Proof.
  unfold render_page, downloadImage. cbn [download_button].
  destruct (processedImage st) as [url|].
  - intros _. exists url. split; reflexivity.
  - rewrite andb_false_r. discriminate.
Qed.

Lemma download_offered_only_with_result_witness :
  exists url,
    processedImage
      {| selectedImage := Some "data:image/png;base64,AAAA";
         processedImage := Some (toDataURL "image/png" (reset_canvas 1 1));
         isProcessing := false |} = Some url
    /\ downloads
         (downloadImage
            {| selectedImage := Some "data:image/png;base64,AAAA";
               processedImage := Some (toDataURL "image/png" (reset_canvas 1 1));
               isProcessing := false |}) = [("processed-slip.png", url)].
Proof.
  apply (download_offered_only_with_result
           {| selectedImage := Some "data:image/png;base64,AAAA";
              processedImage := Some (toDataURL "image/png" (reset_canvas 1 1));
              isProcessing := false |}).
  reflexivity.
Defined.

(** ** The answers of the edge function *)

Section ServeProperties.

Variable JSON_parse : string -> option json.
Variable match_fenced : string -> option (string * string).
Variable match_bracketed : string -> option string.

Let serve := ProcessSlip.serve JSON_parse match_fenced match_bracketed.

(** Every answer has one of four statuses, and its body follows from the
    status: a 200 carries [textElements] (or nothing, for the preflight),
    every other answer carries an [error] with its message. *)
Theorem serve_answer_shape
    (req : ProcessSlip.request) (key : option string)
    (fetched : ProcessSlip.fetchResult) :
  let answer := serve req key fetched in
  (ProcessSlip.status answer = 200 /\
   (ProcessSlip.responseBody answer = None \/
    exists v, ProcessSlip.responseBody answer = Some (JObject [("textElements", v)])))
  \/
  ((ProcessSlip.status answer = 402 \/ ProcessSlip.status answer = 429 \/
    ProcessSlip.status answer = 500) /\
   exists msg, ProcessSlip.responseBody answer = Some (JObject [("error", JString msg)])).
Proof.
  unfold serve, ProcessSlip.serve, ProcessSlip.error_response.
  destruct (String.eqb (ProcessSlip.method req) "OPTIONS");
    [left; split; [reflexivity | left; reflexivity]|].
  destruct (ProcessSlip.body req) as [error|image];
    [right; split; [tauto | eexists; reflexivity]|].
  destruct key as [[|k key]|];
    try (right; split; [cbn; tauto | eexists; reflexivity]).
  destruct fetched as [error|response];
    [right; split; [cbn; tauto | eexists; reflexivity]|].
  destruct (ProcessSlip.ok response); cbn [negb].
  - destruct (ProcessSlip.payload response) as [error|[content|]];
      try (right; split; [cbn; tauto | eexists; reflexivity]).
    destruct (ProcessSlip.truthy_json content);
      [|right; split; [cbn; tauto | eexists; reflexivity]].
    left. split; [reflexivity|]. right. eexists. reflexivity.
  - destruct (ProcessSlip.gateway_status response =? 429);
      [right; split; [cbn; tauto | eexists; reflexivity]|].
    destruct (ProcessSlip.gateway_status response =? 402);
      [right; split; [cbn; tauto | eexists; reflexivity]|].
    destruct (ProcessSlip.errorText response);
      right; (split; [cbn; tauto | eexists; reflexivity]).
Qed.

(** The preflight request is answered 200 with an empty body before
    anything is read: the body of the request, the key and the gateway play
    no part. *)
Theorem serve_preflight
    (b : jsError + string) (key : option string)
    (fetched : ProcessSlip.fetchResult) :
  serve {| ProcessSlip.method := "OPTIONS"; ProcessSlip.body := b |} key fetched =
  {| ProcessSlip.status := 200; ProcessSlip.responseBody := None |}.
Proof. reflexivity. Qed.

(** Without the key, missing or empty, every request with a readable body
    is answered 500 "LOVABLE_API_KEY is not configured", whatever the
    gateway would have said. *)
Theorem serve_without_key
    (m image : string) (fetched : ProcessSlip.fetchResult) :
  String.eqb m "OPTIONS" = false ->
  serve {| ProcessSlip.method := m; ProcessSlip.body := inr image |} None fetched =
    ProcessSlip.error_response 500 "LOVABLE_API_KEY is not configured"
  /\ serve {| ProcessSlip.method := m; ProcessSlip.body := inr image |} (Some "") fetched =
    ProcessSlip.error_response 500 "LOVABLE_API_KEY is not configured".
Proof.
  intros H. unfold serve, ProcessSlip.serve.
  cbn [ProcessSlip.method ProcessSlip.body]. rewrite H. split; reflexivity.
Qed.

(** When the gateway refuses, its status decides: 429 and 402 are handed
    on with their own message, without reading the body.  For any other
    status the body is read as text first: when that reading fails, the
    answer is 500 with the message of its error, and otherwise 500 "Failed
    to process image".  The body of a refusal is never parsed. *)
Theorem serve_gateway_refusal
    (m image : string) (k : ascii) (key : string)
    (response : ProcessSlip.gatewayResponse) :
  String.eqb m "OPTIONS" = false ->
  ProcessSlip.ok response = false ->
  serve {| ProcessSlip.method := m; ProcessSlip.body := inr image |}
        (Some (String k key)) (ProcessSlip.FetchResolved response) =
  if ProcessSlip.gateway_status response =? 429 then
    ProcessSlip.error_response 429 "Rate limit exceeded. Please try again later."
  else if ProcessSlip.gateway_status response =? 402 then
    ProcessSlip.error_response 402
      "Payment required. Please add credits to your workspace."
  else
    match ProcessSlip.errorText response with
    | inl error => ProcessSlip.error_response 500 (message error)
    | inr _ => ProcessSlip.error_response 500 "Failed to process image"
    end.
Proof.
  intros Hm Hok. unfold serve, ProcessSlip.serve.
  cbn [ProcessSlip.method ProcessSlip.body]. rewrite Hm, Hok. reflexivity.
Qed.

(** A request is answered with [textElements] exactly when its body was
    read, the key is set, the gateway accepted and the content of its
    answer is truthy, string or not. *)
Theorem serve_success_iff
    (req : ProcessSlip.request) (key : option string)
    (fetched : ProcessSlip.fetchResult) :
  String.eqb (ProcessSlip.method req) "OPTIONS" = false ->
  (exists v, serve req key fetched =
             {| ProcessSlip.status := 200;
                ProcessSlip.responseBody := Some (JObject [("textElements", v)]) |})
  <->
  (exists image k key' response content,
      ProcessSlip.body req = inr image
      /\ key = Some (String k key')
      /\ fetched = ProcessSlip.FetchResolved response
      /\ ProcessSlip.ok response = true
      /\ ProcessSlip.payload response = ProcessSlip.BodyJson (Some content)
      /\ ProcessSlip.truthy_json content = true).
Proof.
  intros Hm. unfold serve, ProcessSlip.serve, ProcessSlip.error_response.
  rewrite Hm. split.
  - intros [v H].
    destruct (ProcessSlip.body req) as [error|image]; [discriminate H|].
    destruct key as [[|k key']|]; try discriminate H.
    destruct fetched as [error|response]; [discriminate H|].
    destruct (ProcessSlip.ok response) eqn:Hok; cbn [negb] in H.
    + destruct (ProcessSlip.payload response) as [error|[content|]] eqn:Hp;
        try discriminate H.
      destruct (ProcessSlip.truthy_json content) eqn:Ht; [|discriminate H].
      exists image, k, key', response, content. repeat split; assumption.
    + destruct (ProcessSlip.gateway_status response =? 429); [discriminate H|].
      destruct (ProcessSlip.gateway_status response =? 402); [discriminate H|].
      destruct (ProcessSlip.errorText response); discriminate H.
  - intros (image & k & key' & response & content & Hb & -> & -> & Hok & Hp & Ht).
    rewrite Hb, Hok, Hp, Ht. cbn [negb]. eexists. reflexivity.
Qed.



End ServeProperties.

Lemma serve_without_key_witness :
  ProcessSlip.serve (fun _ => None) (fun _ => None) (fun _ => None)
    {| ProcessSlip.method := "POST";
       ProcessSlip.body := inr "data:image/png;base64,AAAA" |}
    None (ProcessSlip.FetchRejected {| message := "unreachable" |}) =
  ProcessSlip.error_response 500 "LOVABLE_API_KEY is not configured".
Proof.
  apply (serve_without_key (fun _ => None) (fun _ => None) (fun _ => None)
           "POST" "data:image/png;base64,AAAA"
           (ProcessSlip.FetchRejected {| message := "unreachable" |})).
  reflexivity.
Defined.

Lemma serve_gateway_refusal_witness :
  ProcessSlip.serve (fun _ => None) (fun _ => None) (fun _ => None)
    {| ProcessSlip.method := "POST";
       ProcessSlip.body := inr "data:image/png;base64,AAAA" |}
    (Some "key")
    (ProcessSlip.FetchResolved
       {| ProcessSlip.ok := false; ProcessSlip.gateway_status := 503;
          ProcessSlip.errorText := inl {| message := "socket hang up" |};
          ProcessSlip.payload := ProcessSlip.BodyJson None |}) =
  ProcessSlip.error_response 500 "socket hang up".
Proof.
  apply (serve_gateway_refusal (fun _ => None) (fun _ => None) (fun _ => None)
           "POST" "data:image/png;base64,AAAA" "k"%char "ey"
           {| ProcessSlip.ok := false; ProcessSlip.gateway_status := 503;
              ProcessSlip.errorText := inl {| message := "socket hang up" |};
              ProcessSlip.payload := ProcessSlip.BodyJson None |});
    reflexivity.
Defined.

Lemma serve_success_iff_witness :
  exists v,
    ProcessSlip.serve (fun _ => None) (fun _ => None) (fun _ => None)
      {| ProcessSlip.method := "POST";
         ProcessSlip.body := inr "data:image/png;base64,AAAA" |}
      (Some "key")
      (ProcessSlip.FetchResolved
         {| ProcessSlip.ok := true; ProcessSlip.gateway_status := 200;
            ProcessSlip.errorText := inr "";
            ProcessSlip.payload :=
              ProcessSlip.BodyJson
                (Some (JArray [JObject [("type", JString "text");
                                        ("text", JString "TOTAL 100")]])) |}) =
    {| ProcessSlip.status := 200;
       ProcessSlip.responseBody := Some (JObject [("textElements", v)]) |}.
Proof.
  apply (serve_success_iff (fun _ => None) (fun _ => None) (fun _ => None)
           {| ProcessSlip.method := "POST";
              ProcessSlip.body := inr "data:image/png;base64,AAAA" |}
           (Some "key")
           (ProcessSlip.FetchResolved
              {| ProcessSlip.ok := true; ProcessSlip.gateway_status := 200;
                 ProcessSlip.errorText := inr "";
                 ProcessSlip.payload :=
                   ProcessSlip.BodyJson
                     (Some (JArray [JObject [("type", JString "text");
                                             ("text", JString "TOTAL 100")]])) |})).
  - reflexivity.
  - exists "data:image/png;base64,AAAA", "k"%char, "ey",
           {| ProcessSlip.ok := true; ProcessSlip.gateway_status := 200;
              ProcessSlip.errorText := inr "";
              ProcessSlip.payload :=
                ProcessSlip.BodyJson
                  (Some (JArray [JObject [("type", JString "text");
                                          ("text", JString "TOTAL 100")]])) |},
           (JArray [JObject [("type", JString "text");
                             ("text", JString "TOTAL 100")]]).
    repeat split.
Defined.



Lemma caught_failure_is_reported_witness :
  ThemedLayout.processImage (Some "data:image/png;base64,AAAA")
    {| invoked := InvokeError {| message := "Failed to process image" |};
       context2d := true; loaded := Some (800, 1200); currentDate := "" |} =
  [SetIsProcessing true;
   ConsoleError "Error processing image:" "Failed to process image";
   Toast (failure_toast {| message := "Failed to process image" |});
   SetIsProcessing false].
Proof.
  apply (caught_failure_is_reported "d"%char "ata:image/png;base64,AAAA"
           {| invoked := InvokeError {| message := "Failed to process image" |};
              context2d := true; loaded := Some (800, 1200); currentDate := "" |}
           {| message := "Failed to process image" |}).
  left. reflexivity.
Defined.

(** ** The fixed template *)

(** The template is the same 800 by 1200 image whatever the size of the
    uploaded image and whatever the edge function answered: none of the
    recognized text is painted.  Of its 82 paintings the date is the only
    one that changes from a run to the next: the 65th, written in white
    18 pixel type centred at (400, 200). *)
Theorem template_varies_in_date_only
    (size1 size2 : Z * Z) (data1 data2 : textElementsField) (date date' : string) :
  KasikornTemplate.img_onload size1 date data1 =
    KasikornTemplate.img_onload size2 date data2
  /\ width (KasikornTemplate.render date) = 800
  /\ height (KasikornTemplate.render date) = 1200
  /\ length (drawn (KasikornTemplate.render date)) = 82%nat
  /\ nth_error (drawn (KasikornTemplate.render date)) 64 =
     Some (FillText (Color "white") "18px Arial" AlignCenter date
             (num_of_Z 400) (num_of_Z 200))
  /\ firstn 64 (drawn (KasikornTemplate.render date)) =
     firstn 64 (drawn (KasikornTemplate.render date'))
  /\ skipn 65 (drawn (KasikornTemplate.render date)) =
     skipn 65 (drawn (KasikornTemplate.render date')).
Proof.
  split; [reflexivity|].
  split; [vm_compute; reflexivity|].
  split; [vm_compute; reflexivity|].
  split; [vm_compute; reflexivity|].
  split; [vm_compute; same_numbers|].
  split; vm_compute; reflexivity.
Qed.
